(** * The Haven manager's RPC boundary (manager/api/api.ts)

    A shallow embedding of the handlers of [manager/api/api.ts] and of the
    service table [haven] that registers them.  Handlers are asynchronous
    JavaScript functions that call out to collaborators (the Compute Fleet
    API, the worker transport, the controllers), read the process-wide
    [config.setupDone] flag, write to the console and either return a value
    or throw.  They are modelled in a state-and-exception monad over a
    [World] that records the flag, every collaborator call issued (in order)
    and every console line written. *)

From Stdlib Require Import String List Bool Lia.
Import ListNotations.
Open Scope string_scope.

(** ** Failures *)

(** The error taxonomy of the boundary.  api.ts itself raises
    [Code.FailedPrecondition], [Code.NotFound] and [Code.Internal]. *)
Inductive Code : Type :=
| InvalidInput
| Unauthenticated
| FailedPrecondition
| NotFound
| UpstreamUnavailable
| Internal.

(** What a JavaScript [throw] carries here: a [ConnectError] with a message
    and a code of the taxonomy, or any other exception ([JsError]), which has
    a message and no code. *)
Inductive Failure : Type :=
| ConnectError (message : string) (code : Code)
| JsError (message : string).

(** The name of a code as @bufbuild/connect prints it ([codeToString]). *)
Definition codeToString (c : Code) : string :=
  match c with
  | InvalidInput => "invalid_argument"
  | Unauthenticated => "unauthenticated"
  | FailedPrecondition => "failed_precondition"
  | NotFound => "not_found"
  | UpstreamUnavailable => "unavailable"
  | Internal => "internal"
  end.

(** [e.message].  The constructor of a [ConnectError] stores the text it is
    given behind the code in brackets, "[not_found] text", or the bracketed
    code alone when the text is empty; any other exception has the message it
    was made with. *)
Definition message (e : Failure) : string :=
  match e with
  | ConnectError m c =>
      if m =? "" then "[" ++ codeToString c ++ "]"
      else "[" ++ codeToString c ++ "] " ++ m
  | JsError m => m
  end.

(** A failure is normalized when it belongs to the taxonomy. *)
Definition normalized (e : Failure) : bool :=
  match e with
  | ConnectError _ _ => true
  | JsError _ => false
  end.

Inductive Outcome (A : Type) : Type :=
| Returned (a : A)
| Thrown (e : Failure).
Arguments Returned {A} a.
Arguments Thrown {A} e.

(** ** Streams *)

(** What iterating an async iterable to its end produces: the values it
    yields, in order, until it completes ([Done]) or throws ([Fail]). *)
Inductive Stream (A : Type) : Type :=
| Done
| Fail (e : Failure)
| Yield (a : A) (rest : Stream A).
Arguments Done {A}.
Arguments Fail {A} e.
Arguments Yield {A} a rest.

Fixpoint yielded {A} (s : Stream A) : list A :=
  match s with
  | Done | Fail _ => []
  | Yield a rest => a :: yielded rest
  end.

Fixpoint ending {A} (s : Stream A) : option Failure :=
  match s with
  | Done => None
  | Fail e => Some e
  | Yield _ rest => ending rest
  end.

(** ** Messages of the service (pb/manager_pb) *)

Record SetupRequest := { keyFile : option string }.

Record Message := { role : string; content : string }.

Record ChatCompletionRequest :=
  { chat_workerName : string; messages : list Message }.

Record ChatCompletionResponse := { text : string }.

(** A fragment of the worker's completion stream; the handler reads its
    [text] field. *)
Record CompletionChunk := { chunk_text : string }.

Record Empty := { }.

Record Model := { model_name : string }.
Record ListModelsResponse := { models : list Model }.

Record Worker := { worker_name : string; worker_status : string }.
Record ListWorkersResponse := { workers : list Worker }.

Record CreateInferenceWorkerRequest :=
  { modelName : string;
    quantization : string;
    gpuType : option string;
    gpuCount : option nat;
    create_workerName : option string }.

Record RequestedResources :=
  { res_quantization : string;
    res_gpuType : option string;
    res_gpuCount : option nat }.

Record InferenceWorker := { workerName : string }.

(** ** Records of the Compute Fleet API *)

(** One entry of the listing.  [name] and [status] are
    [string | null | undefined] in the client library's type. *)
Record Instance :=
  { name : option string;
    status : option string;
    address : option string }.

(** The handle returned by [createComputeAPI]. *)
Inductive ComputeAPI : Type := InstancesClient.

(** Modelled from the spec: the source of [getWorkerIP] (lib/workers) is
    missing.  The Endpoint Resolver is "a pure function of the
    Worker's current address field" that performs no I/O and returns the
    address or nothing. *)
Definition getWorkerIP (worker : Instance) : option string := address worker.

(** JavaScript truthiness of a [string | null | undefined]. *)
Definition truthy (s : option string) : bool :=
  match s with
  | None => false
  | Some s => negb (s =? "")
  end.

(** [a === b] for [a : string | null | undefined] and [b : string]. *)
Definition strict_eq (a : option string) (b : string) : bool :=
  match a with
  | None => false
  | Some a => a =? b
  end.

(** ** The world *)

(** A call issued to a collaborator. *)
Inductive Call : Type :=
| CallCreateComputeAPI
| CallList
| CallPause (name : string)
| CallStart (name : string)
| CallRemove (name : string)
| CallShutdown (ip : string)
| CallSetupController (file : string)
| CallGenerateController (workerName : string) (messages : list Message)
| CallGetAllModels
| CallListWorkersController
| CallCreateInferenceWorkerController
    (modelName : string) (resources : RequestedResources) (worker : option string).

(** The calls that change the fleet or a worker. *)
Definition mutating (c : Call) : bool :=
  match c with
  | CallPause _ | CallStart _ | CallRemove _ | CallShutdown _ => true
  | _ => false
  end.

(** A line of [console.error]: a formatted string or an error object. *)
Inductive LogEntry : Type :=
| LogText (line : string)
| LogFailure (e : Failure).

Record World :=
  { setupDone : bool;           (* config.setupDone *)
    calls : list Call;          (* collaborator calls issued, oldest first *)
    console : list LogEntry }.  (* console.error output, oldest first *)

(** ** The monad of handlers *)

Definition M (A : Type) : Type := World -> Outcome A * World.

Definition ret {A} (a : A) : M A := fun w => (Returned a, w).

Definition throw {A} (e : Failure) : M A := fun w => (Thrown e, w).

Definition bind {A B} (m : M A) (k : A -> M B) : M B :=
  fun w =>
    match m w with
    | (Returned a, w') => k a w'
    | (Thrown e, w') => (Thrown e, w')
    end.

(** [promise.catch(handler)] *)
Definition catch {A} (m : M A) (handler : Failure -> M A) : M A :=
  fun w =>
    match m w with
    | (Returned a, w') => (Returned a, w')
    | (Thrown e, w') => handler e w'
    end.

Declare Scope handler_scope.
Delimit Scope handler_scope with handler.
Notation "x <- m ;; k" := (bind m (fun x => k))
  (at level 61, m at next level, right associativity) : handler_scope.
Notation "m ;; k" := (bind m (fun _ => k))
  (at level 61, right associativity) : handler_scope.
Open Scope handler_scope.

(** Issue a collaborator call: it is recorded, and its outcome is the
    collaborator's. *)
Definition issue {A} (c : Call) (result : Outcome A) : M A :=
  fun w =>
    (result,
     {| setupDone := setupDone w; calls := calls w ++ [c]; console := console w |}).

(** [console.error(...)] *)
Definition console_error (l : LogEntry) : M unit :=
  fun w =>
    (Returned tt,
     {| setupDone := setupDone w; calls := calls w; console := console w ++ [l] |}).

(** [config.setupDone] *)
Definition read_setupDone : M bool := fun w => (Returned (setupDone w), w).

Definition write_setupDone (b : bool) : M unit :=
  fun w => (Returned tt, {| setupDone := b; calls := calls w; console := console w |}).

(** ** Registered handlers and the request pipeline *)

(** What the framework passes to a registered handler besides the request.
    Of the context only the verdict on the caller's credential matters
    here. *)
Record HandlerContext := { authenticated : bool }.

Definition Handler (Req Resp : Type) : Type := Req -> HandlerContext -> M Resp.

(** The handlers of api.ts declare one parameter, [req]; a JavaScript
    function called with more arguments than it declares ignores the
    rest. *)
Definition handler_of {Req Resp} (f : Req -> M Resp) : Handler Req Resp :=
  fun req _ => f req.

(** Modelled from the spec: the source of [validate] (api/validate) is
    missing.  "Schema validation (reject malformed input before any
    side effect)", failing with [InvalidInput]. *)
Definition validate {Req Resp} (valid : Req -> bool) (handler : Handler Req Resp)
  : Handler Req Resp :=
  fun req ctx =>
    if valid req then handler req ctx
    else throw (ConnectError "Invalid input." InvalidInput).

(** Modelled from the spec: the source of [auth] (api/middleware) is
    missing.  "Authentication (reject unauthenticated callers)",
    failing with [Unauthenticated]. *)
Definition auth {Req Resp} (handler : Handler Req Resp) : Handler Req Resp :=
  fun req ctx =>
    if authenticated ctx then handler req ctx
    else throw (ConnectError "Unauthenticated." Unauthenticated).

(** Modelled from the spec: the source of [enforceSetup] (api/middleware) is
    missing.  "Setup-readiness gate (reject with
    FailedPrecondition if SetupState.done is false)". *)
Definition enforceSetup {Req Resp} (handler : Handler Req Resp) : Handler Req Resp :=
  fun req ctx =>
    done <- read_setupDone ;;
    if done then handler req ctx
    else throw (ConnectError "Setup not complete." FailedPrecondition).

(** Modelled from the spec: the source of [catchErrors] (api/middleware) is
    missing.  "Error normalization (map internal failures to the
    boundary's error taxonomy, logging unexpected ones)"; it is "the single
    point where any otherwise-unhandled failure is caught and converted to
    Internal".  A failure already in the taxonomy passes unchanged. *)
Definition catchErrors {Req Resp} (handler : Handler Req Resp) : Handler Req Resp :=
  fun req ctx =>
    catch (handler req ctx)
          (fun e =>
             match e with
             | ConnectError _ _ => throw e
             | JsError m =>
                 console_error (LogFailure e) ;;
                 throw (ConnectError m Internal)
             end).

(** The methods of the [Haven] service (pb/manager_connect), with the types
    of their requests and responses. *)
Module Method.

Inductive t : Type :=
| setup
| chatCompletion
| listModels
| listWorkers
| createInferenceWorker
| pauseInferenceWorker
| resumeInferenceWorker
| deleteInferenceWorker.

Definition I (m : t) : Type :=
  match m with
  | setup => SetupRequest
  | chatCompletion => ChatCompletionRequest
  | listModels | listWorkers => Empty
  | createInferenceWorker => CreateInferenceWorkerRequest
  | pauseInferenceWorker | resumeInferenceWorker | deleteInferenceWorker =>
      InferenceWorker
  end.

Definition O (m : t) : Type :=
  match m with
  | setup => unit
  | chatCompletion => Stream ChatCompletionResponse
  | listModels => ListModelsResponse
  | listWorkers => ListWorkersResponse
  | createInferenceWorker
  | pauseInferenceWorker | resumeInferenceWorker | deleteInferenceWorker =>
      InferenceWorker
  end.

(** Every method but the bootstrap one. *)
Definition non_bootstrap (m : t) : bool :=
  match m with
  | setup => false
  | _ => true
  end.

(** The unary methods among them; [chatCompletion] is server-streaming. *)
Definition unary (m : t) : bool :=
  match m with
  | chatCompletion => false
  | _ => true
  end.

End Method.

(** The assertion functions [typia.createAssertEquals<T>()] generates, as
    the predicates they decide. *)
Record Validators :=
  { setupInputValid : SetupRequest -> bool;
    listModelsInputValid : Empty -> bool;
    listWorkersInputValid : Empty -> bool;
    createInferenceWorkerInputValid : CreateInferenceWorkerRequest -> bool;
    inferenceWorkerValid : InferenceWorker -> bool }.

(** ** Collaborators *)

(** How the collaborators answer.  The handlers cannot tell how an answer is
    produced, only what it is, so a collaborator is given by its answer to
    each call; no handler puts the same call twice in one run.  The functions
    of gcloud/resources, lib/client, lib/models and controller/ are outside
    api.ts and are left arbitrary. *)
Record Collaborators :=
  { createComputeAPI_answer : Outcome ComputeAPI;
    list_answer : ComputeAPI -> Outcome (list Instance);
    pause_answer : ComputeAPI -> string -> Outcome unit;
    start_answer : ComputeAPI -> string -> Outcome unit;
    remove_answer : ComputeAPI -> string -> Outcome unit;
    shutdown_answer : string -> Outcome unit;
    setupController_answer : string -> Outcome unit;
    generateController_answer :
      string -> list Message -> Outcome (Stream CompletionChunk);
    getAllModels_answer : Outcome (list string);
    listWorkersController_answer : Outcome (list Worker);
    createInferenceWorkerController_answer :
      string -> RequestedResources -> option string -> Outcome string }.

Section Handlers.

Variable upstream : Collaborators.
Variable validators : Validators.

Definition createComputeAPI : M ComputeAPI :=
  issue CallCreateComputeAPI (createComputeAPI_answer upstream).

(** [list(api)] of gcloud/resources ([list] is the type of lists here). *)
Definition list_workers (api : ComputeAPI) : M (list Instance) :=
  issue CallList (list_answer upstream api).

Definition pause (api : ComputeAPI) (name : string) : M unit :=
  issue (CallPause name) (pause_answer upstream api name).

Definition start (api : ComputeAPI) (name : string) : M unit :=
  issue (CallStart name) (start_answer upstream api name).

Definition remove (api : ComputeAPI) (name : string) : M unit :=
  issue (CallRemove name) (remove_answer upstream api name).

(** [getTransport(ip).shutdown({})]: building the client does nothing
    observable; the call is the shutdown notification. *)
Definition shutdown (ip : string) : M unit :=
  issue (CallShutdown ip) (shutdown_answer upstream ip).

(** Modelled from the spec: the source of [setupController] (controller/setup) is
    missing.  "First call with a valid credential payload
    transitions SetupState.done to true": the controller is called with the
    payload and, when it succeeds, the flag is set. *)
Definition setupController (file : string) : M unit :=
  issue (CallSetupController file) (setupController_answer upstream file) ;;
  write_setupDone true.

Definition generateController (workerName : string) (messages : list Message)
  : M (Stream CompletionChunk) :=
  issue (CallGenerateController workerName messages)
        (generateController_answer upstream workerName messages).

Definition getAllModels : M (list string) :=
  issue CallGetAllModels (getAllModels_answer upstream).

Definition listWorkersController : M (list Worker) :=
  issue CallListWorkersController (listWorkersController_answer upstream).

Definition createInferenceWorkerController
  (modelName : string) (resources : RequestedResources) (worker : option string)
  : M string :=
  issue (CallCreateInferenceWorkerController modelName resources worker)
        (createInferenceWorkerController_answer upstream modelName resources worker).

(** ** Setup *)

Definition setupHandler (req : SetupRequest) : M unit :=
  done <- read_setupDone ;;
  if done then ret tt
  else
    let file := keyFile req in
    match file with
    | None => throw (ConnectError "Setup not complete." FailedPrecondition)
    | Some file => setupController file
    end.

(** ** Generate text *)

(** The body of the [for await] loop, over the whole stream: one response
    per fragment; the stream's end, or its failure, ends the generator. *)
Fixpoint relay (stream : Stream CompletionChunk) : Stream ChatCompletionResponse :=
  match stream with
  | Done => Done
  | Fail e => Fail e
  | Yield data rest => Yield {| text := chunk_text data |} (relay rest)
  end.

Definition chatCompletion (req : ChatCompletionRequest)
  : M (Stream ChatCompletionResponse) :=
  let workerName := chat_workerName req in
  let messages := messages req in
  stream <- generateController workerName messages ;;
  ret (relay stream).

(** ** List models *)

Definition listModels (req : Empty) : M ListModelsResponse :=
  catch
    (names <- getAllModels ;;
     let models := map (fun name => {| model_name := name |}) names in
     ret {| models := models |})
    (fun e => throw (ConnectError (message e) Internal)).

(** ** List workers *)

Definition listWorkers (req : Empty) : M ListWorkersResponse :=
  workerList <- listWorkersController ;;
  ret {| workers := workerList |}.

(** ** Create inference worker *)

Definition createInferenceWorker (req : CreateInferenceWorkerRequest)
  : M InferenceWorker :=
  let modelName := modelName req in
  let worker := create_workerName req in
  let requestedResources :=
    {| res_quantization := quantization req;
       res_gpuType := gpuType req;
       res_gpuCount := gpuCount req |} in
  workerName <- createInferenceWorkerController modelName requestedResources worker ;;
  ret {| workerName := workerName |}.

(** ** Pause, resume and delete a worker *)

(** [workers.find((worker) => worker.name === workerName)] *)
Definition find_worker (workers : list Instance) (workerName : string)
  : option Instance :=
  find (fun worker => strict_eq (name worker) workerName) workers.

(** The test [!worker || !worker.name] and what the code knows once it is
    false: the record and its non-empty name. *)
Definition existing (worker : option Instance) : option (Instance * string) :=
  match worker with
  | None => None
  | Some worker =>
      match name worker with
      | None => None
      | Some n => if n =? "" then None else Some (worker, n)
      end
  end.

Definition pauseWorker (req : InferenceWorker) : M InferenceWorker :=
  let workerName := workerName req in
  api <- createComputeAPI ;;
  workers <- list_workers api ;;
  let worker := find_worker workers workerName in
  match existing worker with
  | None => throw (ConnectError ("Worker " ++ workerName ++ " does not exist") NotFound)
  | Some (worker, worker_name) =>
      match getWorkerIP worker with
      | Some ip =>
          if truthy (Some ip) then
            catch (shutdown ip)
                  (fun e =>
                     console_error
                       (LogText ("Error sending shutdown signal to worker "
                                 ++ workerName ++ ": " ++ message e)))
          else ret tt
      | None => ret tt
      end ;;
      catch (pause api worker_name)
            (fun e =>
               console_error (LogFailure e) ;;
               throw (ConnectError ("Failed to pause worker " ++ workerName
                                    ++ ": " ++ message e) Internal)) ;;
      ret {| workerName := worker_name |}
  end.

Definition resumeWorker (req : InferenceWorker) : M InferenceWorker :=
  let workerName := workerName req in
  api <- createComputeAPI ;;
  workers <- list_workers api ;;
  let worker := find_worker workers workerName in
  match existing worker with
  | None => throw (ConnectError ("Worker " ++ workerName ++ " does not exist") NotFound)
  | Some (worker, worker_name) =>
      if negb (strict_eq (status worker) "TERMINATED") then
        throw (ConnectError ("Worker " ++ workerName ++ " is not paused")
                            FailedPrecondition)
      else
        catch (start api worker_name)
              (fun e =>
                 console_error (LogFailure e) ;;
                 throw (ConnectError ("Failed to resume worker " ++ workerName
                                      ++ ": " ++ message e) Internal)) ;;
        ret {| workerName := worker_name |}
  end.

Definition deleteWorker (req : InferenceWorker) : M InferenceWorker :=
  let workerName := workerName req in
  api <- createComputeAPI ;;
  workers <- list_workers api ;;
  let worker := find_worker workers workerName in
  match existing worker with
  | None => throw (ConnectError ("Worker " ++ workerName ++ " does not exist") NotFound)
  | Some (worker, worker_name) =>
      match getWorkerIP worker with
      | Some ip =>
          if truthy (Some ip) then
            catch (shutdown ip)
                  (fun e =>
                     console_error
                       (LogText ("Error sending shutdown signal to worker "
                                 ++ workerName ++ ": " ++ message e)))
          else ret tt
      | None => ret tt
      end ;;
      catch (remove api worker_name)
            (fun e =>
               console_error (LogFailure e) ;;
               throw (ConnectError ("Failed to delete worker " ++ workerName
                                    ++ ": " ++ message e) Internal)) ;;
      ret {| workerName := worker_name |}
  end.

(** The block [if (getWorkerIP(worker)) { await getTransport(...).shutdown({})
    .catch(...) }] that [pauseWorker] and [deleteWorker] both contain, named
    for the proofs. *)
Definition notify_shutdown (worker : Instance) (workerName : string) : M unit :=
  match getWorkerIP worker with
  | Some ip =>
      if truthy (Some ip) then
        catch (shutdown ip)
              (fun e =>
                 console_error
                   (LogText ("Error sending shutdown signal to worker "
                             ++ workerName ++ ": " ++ message e)))
      else ret tt
  | None => ret tt
  end.

(** ** The service table *)

(** The implementation api.ts registers for each method. *)
Definition haven (m : Method.t) : Handler (Method.I m) (Method.O m) :=
  match m with
  | Method.setup =>
      catchErrors (validate (setupInputValid validators) (auth (handler_of setupHandler)))
  | Method.chatCompletion =>
      auth (enforceSetup (handler_of chatCompletion))
  | Method.listModels =>
      catchErrors (validate (listModelsInputValid validators)
                            (auth (enforceSetup (handler_of listModels))))
  | Method.listWorkers =>
      catchErrors (validate (listWorkersInputValid validators)
                            (auth (enforceSetup (handler_of listWorkers))))
  | Method.createInferenceWorker =>
      catchErrors (validate (createInferenceWorkerInputValid validators)
                            (auth (enforceSetup (handler_of createInferenceWorker))))
  | Method.pauseInferenceWorker =>
      catchErrors (validate (inferenceWorkerValid validators)
                            (auth (enforceSetup (handler_of pauseWorker))))
  | Method.resumeInferenceWorker =>
      catchErrors (validate (inferenceWorkerValid validators)
                            (auth (enforceSetup (handler_of resumeWorker))))
  | Method.deleteInferenceWorker =>
      catchErrors (validate (inferenceWorkerValid validators)
                            (auth (enforceSetup (handler_of deleteWorker))))
  end.

(** The business handler behind each method. *)
Definition business (m : Method.t) : Method.I m -> M (Method.O m) :=
  match m with
  | Method.setup => setupHandler
  | Method.chatCompletion => chatCompletion
  | Method.listModels => listModels
  | Method.listWorkers => listWorkers
  | Method.createInferenceWorker => createInferenceWorker
  | Method.pauseInferenceWorker => pauseWorker
  | Method.resumeInferenceWorker => resumeWorker
  | Method.deleteInferenceWorker => deleteWorker
  end.

(** The validator of each method's request; none is applied to
    [chatCompletion]. *)
Definition validator (m : Method.t) : Method.I m -> bool :=
  match m with
  | Method.setup => setupInputValid validators
  | Method.chatCompletion => fun _ => true
  | Method.listModels => listModelsInputValid validators
  | Method.listWorkers => listWorkersInputValid validators
  | Method.createInferenceWorker => createInferenceWorkerInputValid validators
  | Method.pauseInferenceWorker
  | Method.resumeInferenceWorker
  | Method.deleteInferenceWorker => inferenceWorkerValid validators
  end.

End Handlers.

(** ** What an operation issued *)

(** The collaborator calls issued between world [w] and a later world
    [w']. *)
Definition issued (w w' : World) : list Call :=
  skipn (length (calls w)) (calls w').

(** The console lines written between [w] and [w']. *)
Definition logged (w w' : World) : list LogEntry :=
  skipn (length (console w)) (console w').

(** [w] after the calls [cs] and the console lines [ls]. *)
Definition after (w : World) (cs : list Call) (ls : list LogEntry) : World :=
  {| setupDone := setupDone w; calls := calls w ++ cs; console := console w ++ ls |}.

(** The collaborators [u], except that every shutdown notification gets the
    answer [answer]. *)
Definition with_shutdown_answer (answer : string -> Outcome unit) (u : Collaborators)
  : Collaborators :=
  {| createComputeAPI_answer := createComputeAPI_answer u;
     list_answer := list_answer u;
     pause_answer := pause_answer u;
     start_answer := start_answer u;
     remove_answer := remove_answer u;
     shutdown_answer := answer;
     setupController_answer := setupController_answer u;
     generateController_answer := generateController_answer u;
     getAllModels_answer := getAllModels_answer u;
     listWorkersController_answer := listWorkersController_answer u;
     createInferenceWorkerController_answer :=
       createInferenceWorkerController_answer u |}.

(** The world once a lifecycle handler has made its lookup. *)
Definition looked_up (w : World) : World :=
  after w [CallCreateComputeAPI; CallList] [].

(** The shutdown notification attempted for a record: one call to its
    address when it has one, none otherwise. *)
Definition notified (worker : Instance) : list Call :=
  match getWorkerIP worker with
  | Some ip => if truthy (Some ip) then [CallShutdown ip] else []
  | None => []
  end.

(** The console line that notification leaves when the worker's answer is a
    failure. *)
Definition complaint (u : Collaborators) (worker : Instance) (workerName : string)
  : list LogEntry :=
  match getWorkerIP worker with
  | Some ip =>
      if truthy (Some ip) then
        match shutdown_answer u ip with
        | Returned _ => []
        | Thrown e =>
            [LogText ("Error sending shutdown signal to worker "
                      ++ workerName ++ ": " ++ message e)]
        end
      else []
  | None => []
  end.

(** ** A sample fleet *)

Definition w1 : Instance :=
  {| name := Some "w1"; status := Some "RUNNING"; address := Some "10.0.0.5" |}.

Definition w3 : Instance :=
  {| name := Some "w3"; status := Some "PROVISIONING"; address := None |}.

Definition w4 : Instance :=
  {| name := Some "w4"; status := Some "TERMINATED"; address := None |}.

Definition unnamed : Instance :=
  {| name := None; status := Some "RUNNING"; address := None |}.

Definition empty_named : Instance :=
  {| name := Some ""; status := Some "TERMINATED"; address := Some "10.0.0.9" |}.

Definition fleet : list Instance := [unnamed; empty_named; w1; w3; w4].

(** Collaborators that list [fleet] and accept every lifecycle call and
    setup, with the given answers from [createComputeAPI] and from the
    worker's completion endpoint; the workers refuse the shutdown
    notification. *)
Definition sample (api : Outcome ComputeAPI)
                  (completion : Outcome (Stream CompletionChunk)) : Collaborators :=
  {| createComputeAPI_answer := api;
     list_answer := fun _ => Returned fleet;
     pause_answer := fun _ _ => Returned tt;
     start_answer := fun _ _ => Returned tt;
     remove_answer := fun _ _ => Returned tt;
     shutdown_answer := fun _ => Thrown (JsError "connect ECONNREFUSED");
     setupController_answer := fun _ => Returned tt;
     generateController_answer := fun _ _ => completion;
     getAllModels_answer := Returned ["llama-7b"];
     listWorkersController_answer :=
       Returned [{| worker_name := "w1"; worker_status := "RUNNING" |}];
     createInferenceWorkerController_answer := fun _ _ worker =>
       match worker with
       | Some n => Returned n
       | None => Returned "haven-w"
       end |}.

(** The completion endpoint is down. *)
Definition sample_upstream : Collaborators :=
  sample (Returned InstancesClient) (Thrown (JsError "connect ECONNREFUSED")).

(** The completion endpoint answers in two fragments. *)
Definition answering_upstream : Collaborators :=
  sample (Returned InstancesClient)
         (Returned (Yield {| chunk_text := "Hel" |}
                          (Yield {| chunk_text := "lo" |} Done))).

(** The Compute Fleet API cannot be reached. *)
Definition unreachable_upstream : Collaborators :=
  sample (Thrown (JsError "getaddrinfo ENOTFOUND"))
         (Thrown (JsError "connect ECONNREFUSED")).

Definition hello : ChatCompletionRequest :=
  {| chat_workerName := "w1";
     messages := [{| role := "user"; content := "Say hello." |}] |}.

(** Validators that accept every request. *)
Definition accept_all : Validators :=
  {| setupInputValid := fun _ => true;
     listModelsInputValid := fun _ => true;
     listWorkersInputValid := fun _ => true;
     createInferenceWorkerInputValid := fun _ => true;
     inferenceWorkerValid := fun _ => true |}.

Definition fresh_world : World :=
  {| setupDone := false; calls := []; console := [] |}.

Definition ready_world : World :=
  {| setupDone := true; calls := []; console := [] |}.

Definition caller : HandlerContext := {| authenticated := true |}.

(** ** Variations on the sample collaborators *)

(** [u], with the given listing. *)
Definition with_listing (listing : Outcome (list Instance)) (u : Collaborators)
  : Collaborators :=
  {| createComputeAPI_answer := createComputeAPI_answer u;
     list_answer := fun _ => listing;
     pause_answer := pause_answer u;
     start_answer := start_answer u;
     remove_answer := remove_answer u;
     shutdown_answer := shutdown_answer u;
     setupController_answer := setupController_answer u;
     generateController_answer := generateController_answer u;
     getAllModels_answer := getAllModels_answer u;
     listWorkersController_answer := listWorkersController_answer u;
     createInferenceWorkerController_answer :=
       createInferenceWorkerController_answer u |}.

(** [u], with the given answer to every pause, start and remove call. *)
Definition with_fleet_answer (answer : Outcome unit) (u : Collaborators)
  : Collaborators :=
  {| createComputeAPI_answer := createComputeAPI_answer u;
     list_answer := list_answer u;
     pause_answer := fun _ _ => answer;
     start_answer := fun _ _ => answer;
     remove_answer := fun _ _ => answer;
     shutdown_answer := shutdown_answer u;
     setupController_answer := setupController_answer u;
     generateController_answer := generateController_answer u;
     getAllModels_answer := getAllModels_answer u;
     listWorkersController_answer := listWorkersController_answer u;
     createInferenceWorkerController_answer :=
       createInferenceWorkerController_answer u |}.

(** [u], with the given answer of the model catalog. *)
Definition with_catalog (catalog : Outcome (list string)) (u : Collaborators)
  : Collaborators :=
  {| createComputeAPI_answer := createComputeAPI_answer u;
     list_answer := list_answer u;
     pause_answer := pause_answer u;
     start_answer := start_answer u;
     remove_answer := remove_answer u;
     shutdown_answer := shutdown_answer u;
     setupController_answer := setupController_answer u;
     generateController_answer := generateController_answer u;
     getAllModels_answer := catalog;
     listWorkersController_answer := listWorkersController_answer u;
     createInferenceWorkerController_answer :=
       createInferenceWorkerController_answer u |}.

(** A second record named "w1", paused, behind the running one. *)
Definition w1_paused : Instance :=
  {| name := Some "w1"; status := Some "TERMINATED"; address := None |}.

Definition doubled_fleet : list Instance := [w3; w1; w1_paused].

(** What a lifecycle handler throws when the lookup finds no worker. *)
Definition does_not_exist (workerName : string) : Failure :=
  ConnectError ("Worker " ++ workerName ++ " does not exist") NotFound.

(** [e.code], for a failure that has one. *)
Definition code_of (e : Failure) : option Code :=
  match e with
  | ConnectError _ c => Some c
  | JsError _ => None
  end.

(** * Properties *)

(** ** Bookkeeping *)

Lemma skipn_length_app {A} (l k : list A) : skipn (length l) (l ++ k) = k.
Proof. induction l as [|a l IH]; simpl; auto. Qed.

Lemma issued_after w cs ls : issued w (after w cs ls) = cs.
Proof. unfold issued, after; simpl. apply skipn_length_app. Qed.

Lemma logged_after w cs ls : logged w (after w cs ls) = ls.
Proof. unfold logged, after; simpl. apply skipn_length_app. Qed.

Lemma after_nil w : after w [] [] = w.
Proof. destruct w; unfold after; simpl. now rewrite !app_nil_r. Qed.

Lemma after_after w cs ls cs' ls' :
  after (after w cs ls) cs' ls' = after w (cs ++ cs') (ls ++ ls').
Proof. unfold after; simpl. now rewrite !app_assoc. Qed.

Lemma issue_after {A} (c : Call) (r : Outcome A) w :
  issue c r w = (r, after w [c] []).
Proof. unfold issue, after. now rewrite app_nil_r. Qed.

Lemma console_error_after l w :
  console_error l w = (Returned tt, after w [] [l]).
Proof. unfold console_error, after. now rewrite app_nil_r. Qed.

(** ** Looking a worker up *)

Lemma find_worker_name ws n i :
  find_worker ws n = Some i -> In i ws /\ name i = Some n.
Proof.
  unfold find_worker. intros H. apply find_some in H. destruct H as [Hin Heq].
  split; [exact Hin|].
  unfold strict_eq in Heq. destruct (name i) as [m|]; [|discriminate].
  apply String.eqb_eq in Heq. now subst.
Qed.

Lemma find_worker_absent ws n :
  (forall i, In i ws -> name i <> Some n) -> find_worker ws n = None.
Proof.
  intros H. unfold find_worker.
  destruct (find _ ws) as [i|] eqn:E; [|reflexivity].
  apply find_some in E. destruct E as [Hin Heq]. exfalso.
  apply (H i Hin). unfold strict_eq in Heq.
  destruct (name i) as [m|]; [|discriminate].
  apply String.eqb_eq in Heq. now subst.
Qed.

Lemma existing_found ws n i m :
  existing (find_worker ws n) = Some (i, m) ->
  find_worker ws n = Some i /\ m = n /\ n <> "" /\ name i = Some n.
Proof.
  destruct (find_worker ws n) as [j|] eqn:E; simpl; [|discriminate].
  destruct (find_worker_name _ _ _ E) as [_ Hn]. rewrite Hn.
  destruct (n =? "") eqn:En; [discriminate|].
  intros H. injection H as -> ->. repeat split; auto.
  intros ->. discriminate.
Qed.

Lemma existing_empty_name ws : existing (find_worker ws "") = None.
Proof.
  destruct (existing (find_worker ws "")) as [[i m]|] eqn:E; [|reflexivity].
  apply existing_found in E. destruct E as (_ & _ & H & _). now elim H.
Qed.

(** ** The three lifecycle handlers, step by step *)

Section Lifecycle.

Variable u : Collaborators.
Variable ws : list Instance.
Hypothesis api_ok : createComputeAPI_answer u = Returned InstancesClient.
Hypothesis list_ok : list_answer u InstancesClient = Returned ws.

Lemma notify_shutdown_run i n w :
  notify_shutdown u i n w =
  match getWorkerIP i with
  | Some ip =>
      if truthy (Some ip) then
        match shutdown_answer u ip with
        | Returned _ => (Returned tt, after w [CallShutdown ip] [])
        | Thrown e =>
            (Returned tt,
             after w [CallShutdown ip]
                   [LogText ("Error sending shutdown signal to worker "
                             ++ n ++ ": " ++ message e)])
        end
      else (Returned tt, w)
  | None => (Returned tt, w)
  end.
Proof.
  unfold notify_shutdown. destruct (getWorkerIP i) as [ip|]; [|reflexivity].
  destruct (truthy (Some ip)); [|reflexivity].
  unfold catch, shutdown. rewrite issue_after.
  destruct (shutdown_answer u ip) as [[]|e]; [reflexivity|].
  rewrite console_error_after, after_after. reflexivity.
Qed.

Ltac run_lookup H :=
  unfold bind, createComputeAPI, list_workers;
  rewrite issue_after, api_ok, issue_after, list_ok, H, after_after;
  simpl app; unfold looked_up.

Lemma pauseWorker_absent req w :
  existing (find_worker ws (workerName req)) = None ->
  pauseWorker u req w
  = (Thrown (ConnectError ("Worker " ++ workerName req ++ " does not exist") NotFound),
     looked_up w).
Proof. intros H. unfold pauseWorker. run_lookup H. reflexivity. Qed.

Lemma resumeWorker_absent req w :
  existing (find_worker ws (workerName req)) = None ->
  resumeWorker u req w
  = (Thrown (ConnectError ("Worker " ++ workerName req ++ " does not exist") NotFound),
     looked_up w).
Proof. intros H. unfold resumeWorker. run_lookup H. reflexivity. Qed.

Lemma deleteWorker_absent req w :
  existing (find_worker ws (workerName req)) = None ->
  deleteWorker u req w
  = (Thrown (ConnectError ("Worker " ++ workerName req ++ " does not exist") NotFound),
     looked_up w).
Proof. intros H. unfold deleteWorker. run_lookup H. reflexivity. Qed.

Lemma notify_shutdown_returns i n w :
  fst (notify_shutdown u i n w) = Returned tt.
Proof.
  rewrite notify_shutdown_run.
  destruct (getWorkerIP i) as [ip|]; [|reflexivity].
  destruct (truthy (Some ip)); [|reflexivity].
  destruct (shutdown_answer u ip) as [[]|e]; reflexivity.
Qed.

(** An upstream call guarded by [.catch((e) => { console.error(e); throw
    new ConnectError(..., Code.Internal) })], then the final [return]. *)
Lemma guarded_call_run (c : Call) (answer : Outcome unit) (describe : Failure -> string)
      (n : string) (w : World) :
  (catch (issue c answer)
         (fun e => console_error (LogFailure e) ;;
                   throw (ConnectError (describe e) Internal)) ;;
   ret {| workerName := n |}) w
  = match answer with
    | Returned _ => (Returned {| workerName := n |}, after w [c] [])
    | Thrown e =>
        (Thrown (ConnectError (describe e) Internal), after w [c] [LogFailure e])
    end.
Proof.
  unfold catch, bind. rewrite issue_after.
  destruct answer as [[]|e]; [reflexivity|].
  rewrite console_error_after, after_after. reflexivity.
Qed.

Ltac after_notification :=
  match goal with
  | |- context [snd (notify_shutdown u ?i ?n _)] =>
      fold (notify_shutdown u i n)
  end;
  match goal with
  | |- context [notify_shutdown u ?i ?n ?w] =>
      let o := fresh "o" in
      let w1 := fresh "w1" in
      let E := fresh "E" in
      pose proof (notify_shutdown_returns i n w) as E;
      destruct (notify_shutdown u i n w) as [o w1];
      simpl in E; subst o; simpl snd
  end.

Lemma pauseWorker_existing req w i n :
  existing (find_worker ws (workerName req)) = Some (i, n) ->
  pauseWorker u req w
  = let w1 := snd (notify_shutdown u i (workerName req) (looked_up w)) in
    match pause_answer u InstancesClient n with
    | Returned _ => (Returned {| workerName := n |}, after w1 [CallPause n] [])
    | Thrown e =>
        (Thrown (ConnectError ("Failed to pause worker " ++ workerName req
                               ++ ": " ++ message e) Internal),
         after w1 [CallPause n] [LogFailure e])
    end.
Proof.
  intros H. unfold pauseWorker. run_lookup H. after_notification.
  unfold pause.
  apply (guarded_call_run (CallPause n) (pause_answer u InstancesClient n)
           (fun e => "Failed to pause worker " ++ workerName req ++ ": " ++ message e)).
Qed.

Lemma deleteWorker_existing req w i n :
  existing (find_worker ws (workerName req)) = Some (i, n) ->
  deleteWorker u req w
  = let w1 := snd (notify_shutdown u i (workerName req) (looked_up w)) in
    match remove_answer u InstancesClient n with
    | Returned _ => (Returned {| workerName := n |}, after w1 [CallRemove n] [])
    | Thrown e =>
        (Thrown (ConnectError ("Failed to delete worker " ++ workerName req
                               ++ ": " ++ message e) Internal),
         after w1 [CallRemove n] [LogFailure e])
    end.
Proof.
  intros H. unfold deleteWorker. run_lookup H. after_notification.
  unfold remove.
  apply (guarded_call_run (CallRemove n) (remove_answer u InstancesClient n)
           (fun e => "Failed to delete worker " ++ workerName req ++ ": " ++ message e)).
Qed.

Lemma resumeWorker_existing req w i n :
  existing (find_worker ws (workerName req)) = Some (i, n) ->
  resumeWorker u req w
  = if negb (strict_eq (status i) "TERMINATED") then
      (Thrown (ConnectError ("Worker " ++ workerName req ++ " is not paused")
                            FailedPrecondition),
       looked_up w)
    else
      match start_answer u InstancesClient n with
      | Returned _ =>
          (Returned {| workerName := n |}, after (looked_up w) [CallStart n] [])
      | Thrown e =>
          (Thrown (ConnectError ("Failed to resume worker " ++ workerName req
                                 ++ ": " ++ message e) Internal),
           after (looked_up w) [CallStart n] [LogFailure e])
      end.
Proof.
  intros H. unfold resumeWorker. run_lookup H.
  destruct (negb (strict_eq (status i) "TERMINATED")); [reflexivity|].
  unfold start.
  apply (guarded_call_run (CallStart n) (start_answer u InstancesClient n)
           (fun e => "Failed to resume worker " ++ workerName req ++ ": " ++ message e)).
Qed.

End Lifecycle.

(** ** Lookup failures *)

Lemma issued_looked_up w : issued w (looked_up w) = [CallCreateComputeAPI; CallList].
Proof. apply issued_after. Qed.

(** C2: when the listing holds no record with the requested name, each of
    pauseWorker, resumeWorker and deleteWorker fails with NotFound, and the
    only calls it has issued are the two of the lookup: no pause, start,
    remove or shutdown notification. *)
Theorem absent_worker_NotFound
  (u : Collaborators) (ws : list Instance) (req : InferenceWorker) (w : World) :
  createComputeAPI_answer u = Returned InstancesClient ->
  list_answer u InstancesClient = Returned ws ->
  (forall i, In i ws -> name i <> Some (workerName req)) ->
  let not_found :=
    Thrown (ConnectError ("Worker " ++ workerName req ++ " does not exist") NotFound) in
  (fst (pauseWorker u req w) = not_found
   /\ existsb mutating (issued w (snd (pauseWorker u req w))) = false)
  /\ (fst (resumeWorker u req w) = not_found
      /\ existsb mutating (issued w (snd (resumeWorker u req w))) = false)
  /\ (fst (deleteWorker u req w) = not_found
      /\ existsb mutating (issued w (snd (deleteWorker u req w))) = false).
Proof.
  intros Hapi Hlist Habsent not_found.
  assert (E : existing (find_worker ws (workerName req)) = None)
    by now rewrite (find_worker_absent ws _ Habsent).
  rewrite (pauseWorker_absent u ws Hapi Hlist req w E),
          (resumeWorker_absent u ws Hapi Hlist req w E),
          (deleteWorker_absent u ws Hapi Hlist req w E).
  simpl fst; simpl snd. rewrite issued_looked_up. simpl. auto.
Qed.

Lemma absent_worker_NotFound_witness :
  let req := {| workerName := "w2" |} in
  let not_found := Thrown (ConnectError "Worker w2 does not exist" NotFound) in
  (fst (pauseWorker sample_upstream req ready_world) = not_found
   /\ existsb mutating
        (issued ready_world (snd (pauseWorker sample_upstream req ready_world))) = false)
  /\ (fst (resumeWorker sample_upstream req ready_world) = not_found
      /\ existsb mutating
           (issued ready_world (snd (resumeWorker sample_upstream req ready_world))) = false)
  /\ (fst (deleteWorker sample_upstream req ready_world) = not_found
      /\ existsb mutating
           (issued ready_world (snd (deleteWorker sample_upstream req ready_world))) = false).
Proof.
  apply (absent_worker_NotFound sample_upstream fleet {| workerName := "w2" |} ready_world).
  - reflexivity.
  - reflexivity.
  - intros i Hin. simpl in Hin.
    repeat (destruct Hin as [<-|Hin]; [discriminate|]). destruct Hin.
Defined.

(** C10: a request whose worker name is the empty string fails with NotFound
    in pauseWorker, resumeWorker and deleteWorker whatever the listing holds,
    also a record whose name is empty or missing. *)
Theorem empty_name_NotFound
  (u : Collaborators) (ws : list Instance) (req : InferenceWorker) (w : World) :
  createComputeAPI_answer u = Returned InstancesClient ->
  list_answer u InstancesClient = Returned ws ->
  workerName req = "" ->
  let not_found := Thrown (ConnectError "Worker  does not exist" NotFound) in
  pauseWorker u req w = (not_found, looked_up w)
  /\ resumeWorker u req w = (not_found, looked_up w)
  /\ deleteWorker u req w = (not_found, looked_up w).
Proof.
  intros Hapi Hlist Hname not_found.
  assert (E : existing (find_worker ws (workerName req)) = None)
    by (rewrite Hname; apply existing_empty_name).
  rewrite (pauseWorker_absent u ws Hapi Hlist req w E),
          (resumeWorker_absent u ws Hapi Hlist req w E),
          (deleteWorker_absent u ws Hapi Hlist req w E).
  rewrite Hname. auto.
Qed.

Lemma empty_name_NotFound_witness :
  In empty_named fleet /\ In unnamed fleet
  /\ let req := {| workerName := "" |} in
     let not_found := Thrown (ConnectError "Worker  does not exist" NotFound) in
     pauseWorker sample_upstream req ready_world = (not_found, looked_up ready_world)
     /\ resumeWorker sample_upstream req ready_world = (not_found, looked_up ready_world)
     /\ deleteWorker sample_upstream req ready_world = (not_found, looked_up ready_world).
Proof.
  split; [simpl; auto|]. split; [simpl; auto|].
  apply (empty_name_NotFound sample_upstream fleet {| workerName := "" |} ready_world);
    reflexivity.
Defined.

(** ** Existing workers *)

Lemma notify_shutdown_world u i n w :
  snd (notify_shutdown u i n w) = after w (notified i) (complaint u i n).
Proof.
  rewrite notify_shutdown_run. unfold notified, complaint.
  destruct (getWorkerIP i) as [ip|]; [|now rewrite after_nil].
  destruct (truthy (Some ip)); [|now rewrite after_nil].
  destruct (shutdown_answer u ip) as [[]|e]; reflexivity.
Qed.

Lemma strict_eq_false a b : a <> Some b -> strict_eq a b = false.
Proof.
  intros H. destruct a as [a|]; [|reflexivity]. simpl.
  apply String.eqb_neq. intros ->. now apply H.
Qed.

Lemma notified_no_address i : truthy (getWorkerIP i) = false -> notified i = [].
Proof.
  unfold notified. destruct (getWorkerIP i) as [ip|]; [|reflexivity].
  now intros ->.
Qed.

Lemma complaint_no_address u i n : truthy (getWorkerIP i) = false -> complaint u i n = [].
Proof.
  unfold complaint. destruct (getWorkerIP i) as [ip|]; [|reflexivity].
  now intros ->.
Qed.

(** C3: resumeWorker on an existing worker whose listed status is not
    "TERMINATED" fails with FailedPrecondition; it has issued the two calls
    of the lookup and nothing else, so no start call. *)
Theorem resume_requires_terminated
  (u : Collaborators) (ws : list Instance) (req : InferenceWorker) (w : World)
  (i : Instance) (n : string) :
  createComputeAPI_answer u = Returned InstancesClient ->
  list_answer u InstancesClient = Returned ws ->
  existing (find_worker ws (workerName req)) = Some (i, n) ->
  status i <> Some "TERMINATED" ->
  fst (resumeWorker u req w)
  = Thrown (ConnectError ("Worker " ++ workerName req ++ " is not paused")
                         FailedPrecondition)
  /\ issued w (snd (resumeWorker u req w)) = [CallCreateComputeAPI; CallList]
  /\ forall m, ~ In (CallStart m) (issued w (snd (resumeWorker u req w))).
Proof.
  intros Hapi Hlist Hex Hst.
  rewrite (resumeWorker_existing u ws Hapi Hlist req w i n Hex).
  rewrite (strict_eq_false _ _ Hst). simpl.
  rewrite issued_looked_up. repeat split.
  intros m [H|[H|[]]]; discriminate.
Qed.

Lemma resume_requires_terminated_witness :
  let r := resumeWorker sample_upstream {| workerName := "w1" |} ready_world in
  fst r = Thrown (ConnectError "Worker w1 is not paused" FailedPrecondition)
  /\ issued ready_world (snd r) = [CallCreateComputeAPI; CallList]
  /\ forall m, ~ In (CallStart m) (issued ready_world (snd r)).
Proof.
  apply (resume_requires_terminated
           sample_upstream fleet {| workerName := "w1" |} ready_world w1 "w1");
    [reflexivity | reflexivity | reflexivity | discriminate].
Defined.

(** C9: pauseWorker and deleteWorker look at no status.  For an existing
    worker, whatever its record says, the calls issued are the lookup, the
    shutdown notification if the record has an address, and then the pause
    (or remove) call. *)
Theorem pause_delete_any_status
  (u : Collaborators) (ws : list Instance) (req : InferenceWorker) (w : World)
  (i : Instance) (n : string) :
  createComputeAPI_answer u = Returned InstancesClient ->
  list_answer u InstancesClient = Returned ws ->
  existing (find_worker ws (workerName req)) = Some (i, n) ->
  issued w (snd (pauseWorker u req w))
  = ([CallCreateComputeAPI; CallList] ++ notified i ++ [CallPause n])%list
  /\ issued w (snd (deleteWorker u req w))
     = ([CallCreateComputeAPI; CallList] ++ notified i ++ [CallRemove n])%list.
Proof.
  intros Hapi Hlist Hex.
  rewrite (pauseWorker_existing u ws Hapi Hlist req w i n Hex),
          (deleteWorker_existing u ws Hapi Hlist req w i n Hex).
  cbv zeta. rewrite notify_shutdown_world. unfold looked_up.
  split.
  - destruct (pause_answer u InstancesClient n); simpl snd;
      rewrite !after_after, issued_after; reflexivity.
  - destruct (remove_answer u InstancesClient n); simpl snd;
      rewrite !after_after, issued_after; reflexivity.
Qed.

Lemma pause_delete_any_status_witness :
  status w4 = Some "TERMINATED" /\ status w3 = Some "PROVISIONING"
  /\ (issued ready_world (snd (pauseWorker sample_upstream {| workerName := "w4" |} ready_world))
      = [CallCreateComputeAPI; CallList; CallPause "w4"]
      /\ issued ready_world (snd (deleteWorker sample_upstream {| workerName := "w4" |} ready_world))
         = [CallCreateComputeAPI; CallList; CallRemove "w4"])
  /\ (issued ready_world (snd (pauseWorker sample_upstream {| workerName := "w3" |} ready_world))
      = [CallCreateComputeAPI; CallList; CallPause "w3"]
      /\ issued ready_world (snd (deleteWorker sample_upstream {| workerName := "w3" |} ready_world))
         = [CallCreateComputeAPI; CallList; CallRemove "w3"]).
Proof.
  split; [reflexivity|]. split; [reflexivity|]. split.
  - apply (pause_delete_any_status
             sample_upstream fleet {| workerName := "w4" |} ready_world w4 "w4");
      reflexivity.
  - apply (pause_delete_any_status
             sample_upstream fleet {| workerName := "w3" |} ready_world w3 "w3");
      reflexivity.
Defined.

(** ** The shutdown notification *)

Lemma pauseWorker_outcome u ws req w i n :
  createComputeAPI_answer u = Returned InstancesClient ->
  list_answer u InstancesClient = Returned ws ->
  existing (find_worker ws (workerName req)) = Some (i, n) ->
  fst (pauseWorker u req w)
  = match pause_answer u InstancesClient n with
    | Returned _ => Returned {| workerName := n |}
    | Thrown e =>
        Thrown (ConnectError ("Failed to pause worker " ++ workerName req
                              ++ ": " ++ message e) Internal)
    end.
Proof.
  intros Hapi Hlist Hex.
  rewrite (pauseWorker_existing u ws Hapi Hlist req w i n Hex). cbv zeta.
  destruct (pause_answer u InstancesClient n); reflexivity.
Qed.

Lemma deleteWorker_outcome u ws req w i n :
  createComputeAPI_answer u = Returned InstancesClient ->
  list_answer u InstancesClient = Returned ws ->
  existing (find_worker ws (workerName req)) = Some (i, n) ->
  fst (deleteWorker u req w)
  = match remove_answer u InstancesClient n with
    | Returned _ => Returned {| workerName := n |}
    | Thrown e =>
        Thrown (ConnectError ("Failed to delete worker " ++ workerName req
                              ++ ": " ++ message e) Internal)
    end.
Proof.
  intros Hapi Hlist Hex.
  rewrite (deleteWorker_existing u ws Hapi Hlist req w i n Hex). cbv zeta.
  destruct (remove_answer u InstancesClient n); reflexivity.
Qed.

Lemma pauseWorker_logged u ws req w i n :
  createComputeAPI_answer u = Returned InstancesClient ->
  list_answer u InstancesClient = Returned ws ->
  existing (find_worker ws (workerName req)) = Some (i, n) ->
  exists rest,
    logged w (snd (pauseWorker u req w)) = (complaint u i (workerName req) ++ rest)%list.
Proof.
  intros Hapi Hlist Hex.
  rewrite (pauseWorker_existing u ws Hapi Hlist req w i n Hex). cbv zeta.
  rewrite notify_shutdown_world. unfold looked_up.
  destruct (pause_answer u InstancesClient n) as [[]|e]; simpl snd;
    rewrite !after_after, logged_after; simpl app; eexists; reflexivity.
Qed.

Lemma deleteWorker_logged u ws req w i n :
  createComputeAPI_answer u = Returned InstancesClient ->
  list_answer u InstancesClient = Returned ws ->
  existing (find_worker ws (workerName req)) = Some (i, n) ->
  exists rest,
    logged w (snd (deleteWorker u req w)) = (complaint u i (workerName req) ++ rest)%list.
Proof.
  intros Hapi Hlist Hex.
  rewrite (deleteWorker_existing u ws Hapi Hlist req w i n Hex). cbv zeta.
  rewrite notify_shutdown_world. unfold looked_up.
  destruct (remove_answer u InstancesClient n) as [[]|e]; simpl snd;
    rewrite !after_after, logged_after; simpl app; eexists; reflexivity.
Qed.

Lemma complaint_failed u i n ip e :
  getWorkerIP i = Some ip -> truthy (Some ip) = true ->
  shutdown_answer u ip = Thrown e ->
  complaint u i n
  = [LogText ("Error sending shutdown signal to worker " ++ n ++ ": " ++ message e)].
Proof. intros Hip Ht He. unfold complaint. now rewrite Hip, Ht, He. Qed.

(** C6: for an existing worker, (1) when its record resolves to no address,
    pauseWorker and deleteWorker send no shutdown notification and succeed as
    soon as the upstream pause (remove) call does; (2) when the notification
    is sent and fails, its failure is written to the console; (3) whatever
    the notification's answer, the operation's outcome is the same. *)
Theorem shutdown_notification_best_effort
  (u : Collaborators) (ws : list Instance) (req : InferenceWorker) (w : World)
  (i : Instance) (n : string) :
  createComputeAPI_answer u = Returned InstancesClient ->
  list_answer u InstancesClient = Returned ws ->
  existing (find_worker ws (workerName req)) = Some (i, n) ->
  (truthy (getWorkerIP i) = false ->
   (pause_answer u InstancesClient n = Returned tt ->
    pauseWorker u req w
    = (Returned {| workerName := n |}, after (looked_up w) [CallPause n] [])
    /\ issued w (snd (pauseWorker u req w))
       = [CallCreateComputeAPI; CallList; CallPause n])
   /\ (remove_answer u InstancesClient n = Returned tt ->
       deleteWorker u req w
       = (Returned {| workerName := n |}, after (looked_up w) [CallRemove n] [])
       /\ issued w (snd (deleteWorker u req w))
          = [CallCreateComputeAPI; CallList; CallRemove n]))
  /\ (forall ip e,
        getWorkerIP i = Some ip -> truthy (Some ip) = true ->
        shutdown_answer u ip = Thrown e ->
        let line := LogText ("Error sending shutdown signal to worker "
                             ++ workerName req ++ ": " ++ message e) in
        In line (logged w (snd (pauseWorker u req w)))
        /\ In line (logged w (snd (deleteWorker u req w))))
  /\ (forall answer,
        fst (pauseWorker (with_shutdown_answer answer u) req w)
        = fst (pauseWorker u req w)
        /\ fst (deleteWorker (with_shutdown_answer answer u) req w)
           = fst (deleteWorker u req w)).
Proof.
  intros Hapi Hlist Hex. split; [|split].
  - intros Hno. split; intros Hok.
    + rewrite (pauseWorker_existing u ws Hapi Hlist req w i n Hex). cbv zeta.
      rewrite notify_shutdown_world, Hok, (notified_no_address i Hno),
              (complaint_no_address u i _ Hno), after_nil.
      split; [reflexivity|]. simpl snd. unfold looked_up.
      now rewrite after_after, issued_after.
    + rewrite (deleteWorker_existing u ws Hapi Hlist req w i n Hex). cbv zeta.
      rewrite notify_shutdown_world, Hok, (notified_no_address i Hno),
              (complaint_no_address u i _ Hno), after_nil.
      split; [reflexivity|]. simpl snd. unfold looked_up.
      now rewrite after_after, issued_after.
  - intros ip e Hip Ht He line.
    destruct (pauseWorker_logged u ws req w i n Hapi Hlist Hex) as [r1 E1].
    destruct (deleteWorker_logged u ws req w i n Hapi Hlist Hex) as [r2 E2].
    rewrite E1, E2, (complaint_failed u i _ ip e Hip Ht He).
    split; simpl; auto.
  - intros answer.
    rewrite (pauseWorker_outcome (with_shutdown_answer answer u) ws req w i n Hapi Hlist Hex),
            (pauseWorker_outcome u ws req w i n Hapi Hlist Hex),
            (deleteWorker_outcome (with_shutdown_answer answer u) ws req w i n Hapi Hlist Hex),
            (deleteWorker_outcome u ws req w i n Hapi Hlist Hex).
    split; reflexivity.
Qed.

Lemma shutdown_notification_best_effort_witness :
  (* w3 has no address *)
  (pauseWorker sample_upstream {| workerName := "w3" |} ready_world
   = (Returned {| workerName := "w3" |},
      after (looked_up ready_world) [CallPause "w3"] [])
   /\ deleteWorker sample_upstream {| workerName := "w3" |} ready_world
      = (Returned {| workerName := "w3" |},
         after (looked_up ready_world) [CallRemove "w3"] []))
  (* w1 has one, and does not answer *)
  /\ (let line :=
        LogText "Error sending shutdown signal to worker w1: connect ECONNREFUSED" in
      In line (logged ready_world
                 (snd (pauseWorker sample_upstream {| workerName := "w1" |} ready_world)))
      /\ In line (logged ready_world
                    (snd (deleteWorker sample_upstream {| workerName := "w1" |} ready_world))))
  /\ fst (pauseWorker sample_upstream {| workerName := "w1" |} ready_world)
     = Returned {| workerName := "w1" |}
  (* the worker's client rejects with a ConnectError *)
  /\ In (LogText "Error sending shutdown signal to worker w1: [unavailable] connection refused")
        (logged ready_world
           (snd (pauseWorker
                   (with_shutdown_answer
                      (fun _ => Thrown (ConnectError "connection refused" UpstreamUnavailable))
                      sample_upstream)
                   {| workerName := "w1" |} ready_world))).
Proof.
  pose proof (shutdown_notification_best_effort
                sample_upstream fleet {| workerName := "w3" |} ready_world w3 "w3"
                eq_refl eq_refl eq_refl) as [H3 _].
  pose proof (shutdown_notification_best_effort
                sample_upstream fleet {| workerName := "w1" |} ready_world w1 "w1"
                eq_refl eq_refl eq_refl) as [_ [H1 H1']].
  pose proof (shutdown_notification_best_effort
                (with_shutdown_answer
                   (fun _ => Thrown (ConnectError "connection refused" UpstreamUnavailable))
                   sample_upstream)
                fleet {| workerName := "w1" |} ready_world w1 "w1"
                eq_refl eq_refl eq_refl) as [_ [H2 _]].
  split; [|split; [|split]].
  - destruct (H3 eq_refl) as [Hp Hd].
    split; [exact (proj1 (Hp eq_refl)) | exact (proj1 (Hd eq_refl))].
  - exact (H1 "10.0.0.5" (JsError "connect ECONNREFUSED") eq_refl eq_refl eq_refl).
  - rewrite <- (proj1 (H1' (fun _ => Returned tt))). reflexivity.
  - exact (proj1 (H2 "10.0.0.5" (ConnectError "connection refused" UpstreamUnavailable)
                     eq_refl eq_refl eq_refl)).
Defined.

(** ** The stream relay *)

Lemma relay_yielded s :
  yielded (relay s) = map (fun data => {| text := chunk_text data |}) (yielded s).
Proof. induction s as [| e | data rest IH]; simpl; [reflexivity..|now rewrite IH]. Qed.

Lemma relay_ending s : ending (relay s) = ending s.
Proof. induction s as [| e | data rest IH]; simpl; auto. Qed.

(** C8: chatCompletion relays the upstream stream fragment by fragment.  The
    responses it yields are as many as the fragments, the k-th response
    carries the text of the k-th fragment, and the relay ends as the stream
    does. *)
Theorem chatCompletion_relays_in_order
  (u : Collaborators) (req : ChatCompletionRequest) (w : World)
  (stream : Stream CompletionChunk) :
  generateController_answer u (chat_workerName req) (messages req) = Returned stream ->
  exists out,
    fst (chatCompletion u req w) = Returned out
    /\ length (yielded out) = length (yielded stream)
    /\ (forall k data,
          nth_error (yielded stream) k = Some data ->
          exists response,
            nth_error (yielded out) k = Some response
            /\ text response = chunk_text data)
    /\ map text (yielded out) = map chunk_text (yielded stream)
    /\ ending out = ending stream.
Proof.
  intros Hgen. exists (relay stream).
  unfold chatCompletion, bind, generateController. rewrite issue_after, Hgen.
  split; [reflexivity|]. rewrite relay_yielded, relay_ending.
  split; [apply length_map|]. split; [|split; [|reflexivity]].
  - intros k data Hk. exists {| text := chunk_text data |}.
    split; [|reflexivity]. now rewrite nth_error_map, Hk.
  - rewrite map_map. reflexivity.
Qed.

Lemma chatCompletion_relays_in_order_witness :
  exists out,
    fst (chatCompletion answering_upstream hello ready_world) = Returned out
    /\ length (yielded out) = 2
    /\ (forall k data,
          nth_error [{| chunk_text := "Hel" |}; {| chunk_text := "lo" |}] k = Some data ->
          exists response,
            nth_error (yielded out) k = Some response
            /\ text response = chunk_text data)
    /\ map text (yielded out) = ["Hel"; "lo"]
    /\ ending out = None.
Proof.
  exact (chatCompletion_relays_in_order
           answering_upstream hello ready_world
           (Yield {| chunk_text := "Hel" |} (Yield {| chunk_text := "lo" |} Done))
           eq_refl).
Defined.

(** ** Setup *)

Lemma setupHandler_done u req w :
  setupDone w = true -> setupHandler u req w = (Returned tt, w).
Proof. intros H. unfold setupHandler, bind, read_setupDone. now rewrite H. Qed.

Lemma setupHandler_probe u req w :
  setupDone w = false -> keyFile req = None ->
  setupHandler u req w
  = (Thrown (ConnectError "Setup not complete." FailedPrecondition), w).
Proof. intros H K. unfold setupHandler, bind, read_setupDone. now rewrite H, K. Qed.

Lemma setupHandler_payload u req w file :
  setupDone w = false -> keyFile req = Some file ->
  setupHandler u req w
  = match setupController_answer u file with
    | Returned _ =>
        (Returned tt,
         {| setupDone := true;
            calls := calls w ++ [CallSetupController file];
            console := console w |})
    | Thrown e => (Thrown e, after w [CallSetupController file] [])
    end.
Proof.
  intros H K. unfold setupHandler, bind, read_setupDone. rewrite H, K.
  unfold setupController, bind. rewrite issue_after.
  destruct (setupController_answer u file) as [[]|e]; [|reflexivity].
  unfold write_setupDone, after; simpl. now rewrite app_nil_r.
Qed.

(** C4: the setup handler is idempotent.  (1) Once setup is done it returns
    at once, whatever the request, and changes nothing.  (2) While setup is
    not done, a request without key file fails with FailedPrecondition and
    changes nothing: no setup is performed.  (3) After a first call with a
    key file has succeeded, every further call, with or without key file,
    returns and changes nothing. *)
Theorem setup_idempotent (u : Collaborators) (req : SetupRequest) (w : World) :
  (setupDone w = true -> setupHandler u req w = (Returned tt, w))
  /\ (setupDone w = false -> keyFile req = None ->
      setupHandler u req w
      = (Thrown (ConnectError "Setup not complete." FailedPrecondition), w))
  /\ (forall file w',
        setupDone w = false -> keyFile req = Some file ->
        setupHandler u req w = (Returned tt, w') ->
        setupDone w' = true
        /\ forall req', setupHandler u req' w' = (Returned tt, w')).
Proof.
  split; [apply setupHandler_done|]. split; [apply setupHandler_probe|].
  intros file w' H K. rewrite (setupHandler_payload u req w file H K).
  destruct (setupController_answer u file) as [[]|e]; [|discriminate].
  intros E. injection E as <-. split; [reflexivity|].
  intros req'. now apply setupHandler_done.
Qed.

Lemma setup_idempotent_witness :
  let first := {| keyFile := Some "{ key }" |} in
  let w' := {| setupDone := true;
               calls := [CallSetupController "{ key }"];
               console := [] |} in
  setupHandler sample_upstream {| keyFile := None |} fresh_world
  = (Thrown (ConnectError "Setup not complete." FailedPrecondition), fresh_world)
  /\ setupHandler sample_upstream first fresh_world = (Returned tt, w')
  /\ setupHandler sample_upstream first w' = (Returned tt, w')
  /\ setupHandler sample_upstream {| keyFile := None |} w' = (Returned tt, w').
Proof.
  intros first w'.
  destruct (setup_idempotent sample_upstream {| keyFile := None |} fresh_world)
    as (_ & Hprobe & _).
  destruct (setup_idempotent sample_upstream first fresh_world) as (_ & _ & Hrun).
  destruct (Hrun "{ key }" w' eq_refl eq_refl eq_refl) as [_ Hagain].
  split; [exact (Hprobe eq_refl eq_refl)|]. split; [reflexivity|].
  split; apply Hagain.
Defined.

(** ** The stages of the pipeline *)

Section Stages.

Context {Req Resp : Type}.
Variable handler : Handler Req Resp.

Lemma validate_rejects valid req ctx w :
  valid req = false ->
  validate valid handler req ctx w
  = (Thrown (ConnectError "Invalid input." InvalidInput), w).
Proof. intros H. unfold validate. now rewrite H. Qed.

Lemma validate_passes valid req ctx w :
  valid req = true -> validate valid handler req ctx w = handler req ctx w.
Proof. intros H. unfold validate. now rewrite H. Qed.

Lemma auth_rejects req ctx w :
  authenticated ctx = false ->
  auth handler req ctx w = (Thrown (ConnectError "Unauthenticated." Unauthenticated), w).
Proof. intros H. unfold auth. now rewrite H. Qed.

Lemma auth_passes req ctx w :
  authenticated ctx = true -> auth handler req ctx w = handler req ctx w.
Proof. intros H. unfold auth. now rewrite H. Qed.

Lemma enforceSetup_closed req ctx w :
  setupDone w = false ->
  enforceSetup handler req ctx w
  = (Thrown (ConnectError "Setup not complete." FailedPrecondition), w).
Proof. intros H. unfold enforceSetup, bind, read_setupDone. now rewrite H. Qed.

Lemma enforceSetup_open req ctx w :
  setupDone w = true -> enforceSetup handler req ctx w = handler req ctx w.
Proof. intros H. unfold enforceSetup, bind, read_setupDone. now rewrite H. Qed.

Lemma catchErrors_passes_ConnectError req ctx w m c w' :
  handler req ctx w = (Thrown (ConnectError m c), w') ->
  catchErrors handler req ctx w = (Thrown (ConnectError m c), w').
Proof. intros H. unfold catchErrors, catch. now rewrite H. Qed.

Lemma catchErrors_converts req ctx w m w' :
  handler req ctx w = (Thrown (JsError m), w') ->
  catchErrors handler req ctx w
  = (Thrown (ConnectError m Internal), after w' [] [LogFailure (JsError m)]).
Proof.
  intros H. unfold catchErrors, catch. rewrite H.
  unfold bind. now rewrite console_error_after.
Qed.

Lemma catchErrors_normalized req ctx w e :
  fst (catchErrors handler req ctx w) = Thrown e -> normalized e = true.
Proof.
  unfold catchErrors, catch.
  destruct (handler req ctx w) as [[a|[m c|m]] w']; simpl.
  - discriminate.
  - intros H. injection H as <-. reflexivity.
  - intros H. injection H as <-. reflexivity.
Qed.

End Stages.

(** ** The service table *)

(** C7: the registered setup handler is the setup handler behind validation
    and authentication, with no readiness gate: a valid, authenticated call
    reaches [setupHandler] whatever the flag, and while setup is not done a
    call with a key file runs the setup. *)
Theorem setup_not_gated
  (u : Collaborators) (v : Validators) (req : SetupRequest)
  (ctx : HandlerContext) (w : World) :
  setupInputValid v req = true ->
  authenticated ctx = true ->
  haven u v Method.setup
  = catchErrors (validate (setupInputValid v) (auth (handler_of (setupHandler u))))
  /\ haven u v Method.setup req ctx w
     = catchErrors (handler_of (setupHandler u)) req ctx w
  /\ (forall file,
        setupDone w = false -> keyFile req = Some file ->
        In (CallSetupController file)
           (issued w (snd (haven u v Method.setup req ctx w)))
        /\ (setupController_answer u file = Returned tt ->
            haven u v Method.setup req ctx w
            = (Returned tt,
               {| setupDone := true;
                  calls := calls w ++ [CallSetupController file];
                  console := console w |}))).
Proof.
  intros Hvalid Hauth.
  assert (E : haven u v Method.setup req ctx w
              = catchErrors (handler_of (setupHandler u)) req ctx w).
  { simpl. unfold catchErrors, catch.
    now rewrite validate_passes, auth_passes. }
  split; [reflexivity|]. split; [exact E|].
  intros file Hdone Hfile. rewrite E.
  unfold catchErrors, catch, handler_of.
  rewrite (setupHandler_payload u req w file Hdone Hfile).
  destruct (setupController_answer u file) as [[]|[m c|m]].
  - split; [|reflexivity]. unfold issued; simpl.
    rewrite skipn_length_app. simpl; auto.
  - split; [|discriminate]. unfold throw. simpl snd.
    rewrite issued_after. simpl; auto.
  - split; [|discriminate]. unfold bind. rewrite console_error_after.
    unfold throw. simpl snd. rewrite after_after, issued_after. simpl; auto.
Qed.

Lemma setup_not_gated_witness :
  setupDone fresh_world = false
  /\ haven sample_upstream accept_all Method.setup
           {| keyFile := Some "{ key }" |} caller fresh_world
     = (Returned tt,
        {| setupDone := true;
           calls := [CallSetupController "{ key }"];
           console := [] |}).
Proof.
  split; [reflexivity|].
  destruct (setup_not_gated sample_upstream accept_all {| keyFile := Some "{ key }" |}
                            caller fresh_world eq_refl eq_refl) as (_ & _ & H).
  exact (proj2 (H "{ key }" eq_refl eq_refl) eq_refl).
Defined.

(** C5: for every method behind the readiness gate, a valid, authenticated
    call made while setup is not done fails with FailedPrecondition and
    leaves the world as it was (no call issued, nothing logged: the business
    handler has not run); once setup is done the same call is the business
    handler's, seen through error normalization for the unary methods. *)
Theorem gated_until_setup
  (u : Collaborators) (v : Validators) (m : Method.t) (req : Method.I m)
  (ctx : HandlerContext) (w : World) :
  Method.non_bootstrap m = true ->
  validator v m req = true ->
  authenticated ctx = true ->
  (setupDone w = false ->
   exists msg,
     haven u v m req ctx w = (Thrown (ConnectError msg FailedPrecondition), w))
  /\ (setupDone w = true ->
      haven u v m req ctx w
      = (if Method.unary m then catchErrors (handler_of (business u m))
         else handler_of (business u m)) req ctx w).
Proof.
  intros Hm Hvalid Hauth.
  destruct m; try discriminate Hm; simpl in *; split; intros Hdone;
    try (exists "Setup not complete.");
    unfold catchErrors, catch;
    rewrite ?validate_passes, ?auth_passes by assumption;
    first [ rewrite enforceSetup_closed by assumption
          | rewrite enforceSetup_open by assumption ];
    reflexivity.
Qed.

Lemma gated_until_setup_witness :
  (exists msg,
     haven sample_upstream accept_all Method.pauseInferenceWorker
           {| workerName := "w3" |} caller fresh_world
     = (Thrown (ConnectError msg FailedPrecondition), fresh_world))
  /\ haven sample_upstream accept_all Method.pauseInferenceWorker
           {| workerName := "w3" |} caller ready_world
     = (Returned {| workerName := "w3" |},
        after ready_world [CallCreateComputeAPI; CallList; CallPause "w3"] []).
Proof.
  pose proof (gated_until_setup sample_upstream accept_all Method.pauseInferenceWorker
                {| workerName := "w3" |} caller fresh_world eq_refl eq_refl eq_refl)
    as [Hclosed _].
  pose proof (gated_until_setup sample_upstream accept_all Method.pauseInferenceWorker
                {| workerName := "w3" |} caller ready_world eq_refl eq_refl eq_refl)
    as [_ Hopen].
  split; [exact (Hclosed eq_refl)|].
  rewrite (Hopen eq_refl). reflexivity.
Defined.

(** C1, as stated, fails for chatCompletion: it is registered behind
    authentication and the readiness gate only.  When the worker's endpoint
    refuses the connection, the plain exception reaches the caller as it
    was raised, not as Internal; under the four stages it would have been
    Internal.  So the registered handler is not the four-stage wrapping of
    the business handler, whatever the validator. *)
Lemma chatCompletion_not_normalized :
  haven sample_upstream accept_all Method.chatCompletion hello caller ready_world
  = (Thrown (JsError "connect ECONNREFUSED"),
     after ready_world [CallGenerateController "w1" (messages hello)] [])
  /\ fst (catchErrors
            (validate (fun _ => true)
               (auth (enforceSetup (handler_of (chatCompletion sample_upstream)))))
            hello caller ready_world)
     = Thrown (ConnectError "connect ECONNREFUSED" Internal)
  /\ forall valid,
       haven sample_upstream accept_all Method.chatCompletion
       <> catchErrors
            (validate valid
               (auth (enforceSetup (handler_of (chatCompletion sample_upstream))))).
Proof.
  split; [reflexivity|]. split; [reflexivity|].
  intros valid H.
  assert (E : fst (haven sample_upstream accept_all Method.chatCompletion
                         hello caller ready_world)
              = fst (catchErrors
                       (validate valid
                          (auth (enforceSetup
                                   (handler_of (chatCompletion sample_upstream)))))
                       hello caller ready_world))
    by now rewrite H.
  unfold catchErrors, catch, validate in E.
  destruct (valid hello); discriminate E.
Qed.

(** C1, amended: every unary method other than setup is registered as
    catchErrors(validate(v, auth(enforceSetup(handler)))).  A call is
    checked against the schema, then for authentication, then against the
    readiness gate, each rejecting before anything else happens; a plain
    exception out of the business handler is logged and becomes Internal;
    and no failure leaves the registered handler outside the taxonomy.  The
    streaming chatCompletion is registered as auth(enforceSetup(handler)). *)
Theorem unary_methods_pipeline (u : Collaborators) (v : Validators) :
  (forall m : Method.t,
     Method.non_bootstrap m = true ->
     Method.unary m = true ->
     haven u v m
     = catchErrors
         (validate (validator v m) (auth (enforceSetup (handler_of (business u m)))))
     /\ forall (req : Method.I m) (ctx : HandlerContext) (w : World),
          (validator v m req = false ->
           exists msg, haven u v m req ctx w = (Thrown (ConnectError msg InvalidInput), w))
          /\ (validator v m req = true -> authenticated ctx = false ->
              exists msg,
                haven u v m req ctx w = (Thrown (ConnectError msg Unauthenticated), w))
          /\ (validator v m req = true -> authenticated ctx = true ->
              setupDone w = false ->
              exists msg,
                haven u v m req ctx w = (Thrown (ConnectError msg FailedPrecondition), w))
          /\ (validator v m req = true -> authenticated ctx = true ->
              setupDone w = true ->
              forall msg w',
                business u m req w = (Thrown (JsError msg), w') ->
                haven u v m req ctx w
                = (Thrown (ConnectError msg Internal),
                   after w' [] [LogFailure (JsError msg)]))
          /\ (forall e, fst (haven u v m req ctx w) = Thrown e -> normalized e = true))
  /\ haven u v Method.chatCompletion
     = auth (enforceSetup (handler_of (chatCompletion u))).
Proof.
  split; [|reflexivity].
  intros m Hm Hunary.
  assert (E : haven u v m
              = catchErrors
                  (validate (validator v m)
                     (auth (enforceSetup (handler_of (business u m))))))
    by (destruct m; try discriminate Hm; try discriminate Hunary; reflexivity).
  split; [exact E|]. rewrite E. clear E.
  intros req ctx w. repeat split.
  - intros Hv. exists "Invalid input.".
    apply catchErrors_passes_ConnectError. now apply validate_rejects.
  - intros Hv Ha. exists "Unauthenticated.".
    apply catchErrors_passes_ConnectError.
    rewrite validate_passes by assumption. now apply auth_rejects.
  - intros Hv Ha Hd. exists "Setup not complete.".
    apply catchErrors_passes_ConnectError.
    rewrite validate_passes, auth_passes by assumption.
    now apply enforceSetup_closed.
  - intros Hv Ha Hd msg w' Hb.
    apply catchErrors_converts.
    rewrite validate_passes, auth_passes, enforceSetup_open by assumption.
    exact Hb.
  - apply catchErrors_normalized.
Qed.

Lemma unary_methods_pipeline_witness :
  business unreachable_upstream Method.pauseInferenceWorker
           {| workerName := "w1" |} ready_world
  = (Thrown (JsError "getaddrinfo ENOTFOUND"),
     after ready_world [CallCreateComputeAPI] [])
  /\ haven unreachable_upstream accept_all Method.pauseInferenceWorker
           {| workerName := "w1" |} caller ready_world
     = (Thrown (ConnectError "getaddrinfo ENOTFOUND" Internal),
        after ready_world [CallCreateComputeAPI]
              [LogFailure (JsError "getaddrinfo ENOTFOUND")]).
Proof.
  split; [reflexivity|].
  destruct (unary_methods_pipeline unreachable_upstream accept_all) as [H _].
  destruct (H Method.pauseInferenceWorker eq_refl eq_refl) as [_ Hcalls].
  destruct (Hcalls {| workerName := "w1" |} caller ready_world)
    as (_ & _ & _ & Hraw & _).
  exact (Hraw eq_refl eq_refl eq_refl "getaddrinfo ENOTFOUND"
              (after ready_world [CallCreateComputeAPI] []) eq_refl).
Defined.

(** * Further properties of the handlers *)

(** ** When the lookup itself fails *)

Section LookupFails.

Variable u : Collaborators.

Lemma pauseWorker_no_api req w e :
  createComputeAPI_answer u = Thrown e ->
  pauseWorker u req w = (Thrown e, after w [CallCreateComputeAPI] []).
Proof.
  intros H. unfold pauseWorker, bind, createComputeAPI.
  now rewrite issue_after, H.
Qed.

Lemma resumeWorker_no_api req w e :
  createComputeAPI_answer u = Thrown e ->
  resumeWorker u req w = (Thrown e, after w [CallCreateComputeAPI] []).
Proof.
  intros H. unfold resumeWorker, bind, createComputeAPI.
  now rewrite issue_after, H.
Qed.

Lemma deleteWorker_no_api req w e :
  createComputeAPI_answer u = Thrown e ->
  deleteWorker u req w = (Thrown e, after w [CallCreateComputeAPI] []).
Proof.
  intros H. unfold deleteWorker, bind, createComputeAPI.
  now rewrite issue_after, H.
Qed.

Hypothesis api_ok : createComputeAPI_answer u = Returned InstancesClient.

Lemma pauseWorker_no_list req w e :
  list_answer u InstancesClient = Thrown e ->
  pauseWorker u req w = (Thrown e, looked_up w).
Proof.
  intros H. unfold pauseWorker, bind, createComputeAPI, list_workers.
  now rewrite issue_after, api_ok, issue_after, H, after_after.
Qed.

Lemma resumeWorker_no_list req w e :
  list_answer u InstancesClient = Thrown e ->
  resumeWorker u req w = (Thrown e, looked_up w).
Proof.
  intros H. unfold resumeWorker, bind, createComputeAPI, list_workers.
  now rewrite issue_after, api_ok, issue_after, H, after_after.
Qed.

Lemma deleteWorker_no_list req w e :
  list_answer u InstancesClient = Thrown e ->
  deleteWorker u req w = (Thrown e, looked_up w).
Proof.
  intros H. unfold deleteWorker, bind, createComputeAPI, list_workers.
  now rewrite issue_after, api_ok, issue_after, H, after_after.
Qed.

End LookupFails.

(** X4: a failure of the lookup is not handled by the lifecycle handlers.
    When createComputeAPI throws, each of them throws the same failure and
    has not asked for the listing; when the listing throws, each throws the
    same failure after the two lookup calls.  Nothing is logged and no
    pause, start, remove or shutdown is issued. *)
Theorem lookup_failure_propagates
  (u : Collaborators) (req : InferenceWorker) (w : World) (e : Failure) :
  (createComputeAPI_answer u = Thrown e ->
   pauseWorker u req w = (Thrown e, after w [CallCreateComputeAPI] [])
   /\ resumeWorker u req w = (Thrown e, after w [CallCreateComputeAPI] [])
   /\ deleteWorker u req w = (Thrown e, after w [CallCreateComputeAPI] []))
  /\ (createComputeAPI_answer u = Returned InstancesClient ->
      list_answer u InstancesClient = Thrown e ->
      pauseWorker u req w = (Thrown e, looked_up w)
      /\ resumeWorker u req w = (Thrown e, looked_up w)
      /\ deleteWorker u req w = (Thrown e, looked_up w)).
Proof.
  split.
  - intros H. repeat split;
      [apply pauseWorker_no_api | apply resumeWorker_no_api | apply deleteWorker_no_api];
      exact H.
  - intros Hapi H. repeat split;
      [apply pauseWorker_no_list | apply resumeWorker_no_list | apply deleteWorker_no_list];
      assumption.
Qed.

Lemma lookup_failure_propagates_witness :
  pauseWorker unreachable_upstream {| workerName := "w1" |} ready_world
  = (Thrown (JsError "getaddrinfo ENOTFOUND"),
     after ready_world [CallCreateComputeAPI] [])
  /\ deleteWorker (with_listing (Thrown (ConnectError "quota" UpstreamUnavailable))
                                sample_upstream)
                  {| workerName := "w1" |} ready_world
     = (Thrown (ConnectError "quota" UpstreamUnavailable), looked_up ready_world).
Proof.
  split.
  - exact (proj1 (proj1 (lookup_failure_propagates
                           unreachable_upstream {| workerName := "w1" |} ready_world
                           (JsError "getaddrinfo ENOTFOUND")) eq_refl)).
  - exact (proj2 (proj2 (proj2 (lookup_failure_propagates
                           (with_listing (Thrown (ConnectError "quota" UpstreamUnavailable))
                                         sample_upstream)
                           {| workerName := "w1" |} ready_world
                           (ConnectError "quota" UpstreamUnavailable)) eq_refl eq_refl))).
Defined.

(** ** Exactly when a worker is found *)

Lemma strict_eq_name i n : name i = Some n -> strict_eq (name i) n = true.
Proof. intros ->. simpl. apply String.eqb_refl. Qed.

Lemma existing_none_iff ws n :
  existing (find_worker ws n) = None
  <-> n = "" \/ forall i, In i ws -> name i <> Some n.
Proof.
  split.
  - destruct (find_worker ws n) as [j|] eqn:E.
    + destruct (find_worker_name _ _ _ E) as [_ Hn]. simpl. rewrite Hn.
      destruct (String.eqb_spec n ""); [auto | discriminate].
    + intros _. right. intros i Hin Hn.
      unfold find_worker in E.
      pose proof (find_none _ _ E i Hin) as F. simpl in F.
      rewrite (strict_eq_name i n Hn) in F. discriminate.
  - intros [-> | H].
    + apply existing_empty_name.
    + now rewrite (find_worker_absent ws n H).
Qed.

Lemma find_worker_first pre i post n :
  (forall j, In j pre -> name j <> Some n) ->
  name i = Some n ->
  find_worker (pre ++ i :: post) n = Some i.
Proof.
  intros Hpre Hi. unfold find_worker.
  induction pre as [|j pre IH]; simpl.
  - now rewrite (strict_eq_name i n Hi).
  - rewrite (strict_eq_false (name j) n (Hpre j (or_introl eq_refl))).
    apply IH. intros k Hk. apply Hpre. now right.
Qed.

Section Found.

Variable u : Collaborators.
Variable ws : list Instance.
Hypothesis api_ok : createComputeAPI_answer u = Returned InstancesClient.
Hypothesis list_ok : list_answer u InstancesClient = Returned ws.

Variable req : InferenceWorker.
Variable w : World.
Variable i : Instance.
Variable n : string.
Hypothesis found : existing (find_worker ws (workerName req)) = Some (i, n).

Lemma found_name : n = workerName req.
Proof. now destruct (existing_found _ _ _ _ found) as (_ & ? & _). Qed.

Lemma resumeWorker_outcome :
  fst (resumeWorker u req w)
  = if negb (strict_eq (status i) "TERMINATED") then
      Thrown (ConnectError ("Worker " ++ workerName req ++ " is not paused")
                           FailedPrecondition)
    else
      match start_answer u InstancesClient n with
      | Returned _ => Returned {| workerName := n |}
      | Thrown e =>
          Thrown (ConnectError ("Failed to resume worker " ++ workerName req
                                ++ ": " ++ message e) Internal)
      end.
Proof.
  rewrite (resumeWorker_existing u ws api_ok list_ok req w i n found).
  destruct (negb _); [reflexivity|].
  destruct (start_answer u InstancesClient n); reflexivity.
Qed.

Lemma pauseWorker_issued :
  issued w (snd (pauseWorker u req w))
  = ([CallCreateComputeAPI; CallList] ++ notified i ++ [CallPause n])%list.
Proof.
  rewrite (pauseWorker_existing u ws api_ok list_ok req w i n found).
  cbv zeta. rewrite notify_shutdown_world. unfold looked_up.
  destruct (pause_answer u InstancesClient n); simpl snd;
    rewrite !after_after, issued_after; reflexivity.
Qed.

Lemma deleteWorker_issued :
  issued w (snd (deleteWorker u req w))
  = ([CallCreateComputeAPI; CallList] ++ notified i ++ [CallRemove n])%list.
Proof.
  rewrite (deleteWorker_existing u ws api_ok list_ok req w i n found).
  cbv zeta. rewrite notify_shutdown_world. unfold looked_up.
  destruct (remove_answer u InstancesClient n); simpl snd;
    rewrite !after_after, issued_after; reflexivity.
Qed.

Lemma resumeWorker_issued :
  issued w (snd (resumeWorker u req w))
  = if negb (strict_eq (status i) "TERMINATED") then [CallCreateComputeAPI; CallList]
    else [CallCreateComputeAPI; CallList; CallStart n].
Proof.
  rewrite (resumeWorker_existing u ws api_ok list_ok req w i n found).
  unfold looked_up.
  destruct (negb _); simpl snd; [apply issued_after|].
  destruct (start_answer u InstancesClient n); simpl snd;
    rewrite !after_after, issued_after; reflexivity.
Qed.

Lemma resumeWorker_logged :
  logged w (snd (resumeWorker u req w))
  = if negb (strict_eq (status i) "TERMINATED") then []
    else match start_answer u InstancesClient n with
         | Returned _ => []
         | Thrown e => [LogFailure e]
         end.
Proof.
  rewrite (resumeWorker_existing u ws api_ok list_ok req w i n found).
  unfold looked_up.
  destruct (negb _); simpl snd; [apply logged_after|].
  destruct (start_answer u InstancesClient n); simpl snd;
    rewrite !after_after, logged_after; reflexivity.
Qed.

End Found.

Lemma strict_eq_true a b : strict_eq a b = true -> a = Some b.
Proof.
  destruct a as [a|]; simpl; [|discriminate].
  intros H. apply String.eqb_eq in H. now subst.
Qed.

(** X1: with the lookup answered, a lifecycle handler fails with NotFound
    exactly when the requested name is empty or no listed record carries it;
    a failure of the pause, start or remove call, or a wrong status, never
    shows as NotFound. *)
Theorem NotFound_exactly_when_missing
  (u : Collaborators) (ws : list Instance) (req : InferenceWorker) (w : World) :
  createComputeAPI_answer u = Returned InstancesClient ->
  list_answer u InstancesClient = Returned ws ->
  let missing :=
    workerName req = "" \/ forall i, In i ws -> name i <> Some (workerName req) in
  ((exists msg, fst (pauseWorker u req w) = Thrown (ConnectError msg NotFound))
   <-> missing)
  /\ ((exists msg, fst (resumeWorker u req w) = Thrown (ConnectError msg NotFound))
      <-> missing)
  /\ ((exists msg, fst (deleteWorker u req w) = Thrown (ConnectError msg NotFound))
      <-> missing).
Proof.
  intros Hapi Hlist missing.
  destruct (existing (find_worker ws (workerName req))) as [[i n]|] eqn:Hex.
  - assert (Hnot : ~ missing).
    { intros Hm. apply existing_none_iff in Hm. congruence. }
    repeat split; try (intros Hm; now elim Hnot); intros [msg H]; exfalso.
    + rewrite (pauseWorker_outcome u ws req w i n Hapi Hlist Hex) in H.
      destruct (pause_answer u InstancesClient n); discriminate.
    + rewrite (resumeWorker_outcome u ws Hapi Hlist req w i n Hex) in H.
      destruct (negb _); [discriminate|].
      destruct (start_answer u InstancesClient n); discriminate.
    + rewrite (deleteWorker_outcome u ws req w i n Hapi Hlist Hex) in H.
      destruct (remove_answer u InstancesClient n); discriminate.
  - assert (Hm : missing) by now apply existing_none_iff.
    rewrite (pauseWorker_absent u ws Hapi Hlist req w Hex),
            (resumeWorker_absent u ws Hapi Hlist req w Hex),
            (deleteWorker_absent u ws Hapi Hlist req w Hex).
    repeat split; auto; intros _; eexists; reflexivity.
Qed.

Lemma NotFound_exactly_when_missing_witness :
  (exists msg,
     fst (resumeWorker sample_upstream {| workerName := "w2" |} ready_world)
     = Thrown (ConnectError msg NotFound))
  /\ ~ (exists msg,
          fst (resumeWorker sample_upstream {| workerName := "w1" |} ready_world)
          = Thrown (ConnectError msg NotFound)).
Proof.
  split.
  - apply (proj1 (proj2 (NotFound_exactly_when_missing
                           sample_upstream fleet {| workerName := "w2" |} ready_world
                           eq_refl eq_refl))).
    right. intros i Hin. simpl in Hin.
    repeat (destruct Hin as [<-|Hin]; [discriminate|]). destruct Hin.
  - intros H.
    apply (proj1 (proj1 (proj2 (NotFound_exactly_when_missing
                                  sample_upstream fleet {| workerName := "w1" |} ready_world
                                  eq_refl eq_refl)))) in H.
    destruct H as [H|H]; [discriminate|].
    apply (H w1); simpl; auto.
Defined.

(** X2: with the lookup answered, pauseWorker (deleteWorker) returns exactly
    when the worker exists and the pause (remove) call succeeds; resumeWorker
    returns exactly when the worker exists, its status is "TERMINATED" and the
    start call succeeds. *)
Theorem lifecycle_returns_iff
  (u : Collaborators) (ws : list Instance) (req : InferenceWorker) (w : World) :
  createComputeAPI_answer u = Returned InstancesClient ->
  list_answer u InstancesClient = Returned ws ->
  let n := workerName req in
  ((exists r, fst (pauseWorker u req w) = Returned r)
   <-> exists i, existing (find_worker ws n) = Some (i, n)
                 /\ pause_answer u InstancesClient n = Returned tt)
  /\ ((exists r, fst (resumeWorker u req w) = Returned r)
      <-> exists i, existing (find_worker ws n) = Some (i, n)
                    /\ status i = Some "TERMINATED"
                    /\ start_answer u InstancesClient n = Returned tt)
  /\ ((exists r, fst (deleteWorker u req w) = Returned r)
      <-> exists i, existing (find_worker ws n) = Some (i, n)
                    /\ remove_answer u InstancesClient n = Returned tt).
Proof.
  intros Hapi Hlist n. subst n.
  destruct (existing (find_worker ws (workerName req))) as [[i m]|] eqn:Hex.
  - pose proof (found_name ws req i m Hex) as ->.
    rewrite (pauseWorker_outcome u ws req w i _ Hapi Hlist Hex),
            (resumeWorker_outcome u ws Hapi Hlist req w i _ Hex),
            (deleteWorker_outcome u ws req w i _ Hapi Hlist Hex).
    repeat split.
    + intros [r H]. exists i. split; [reflexivity|].
      destruct (pause_answer u InstancesClient (workerName req)) as [[]|e];
        [reflexivity | discriminate].
    + intros [j [_ H]]. rewrite H. eauto.
    + intros [r H]. exists i. split; [reflexivity|].
      destruct (strict_eq (status i) "TERMINATED") eqn:Hst; [|discriminate].
      split; [now apply strict_eq_true|]. simpl in H.
      destruct (start_answer u InstancesClient (workerName req)) as [[]|e];
        [reflexivity | discriminate].
    + intros [j [Hj [Hst H]]]. injection Hj as <-.
      rewrite Hst, H. simpl. eauto.
    + intros [r H]. exists i. split; [reflexivity|].
      destruct (remove_answer u InstancesClient (workerName req)) as [[]|e];
        [reflexivity | discriminate].
    + intros [j [_ H]]. rewrite H. eauto.
  - rewrite (pauseWorker_absent u ws Hapi Hlist req w Hex),
            (resumeWorker_absent u ws Hapi Hlist req w Hex),
            (deleteWorker_absent u ws Hapi Hlist req w Hex).
    repeat split; intros [x H]; try discriminate; destruct H; discriminate.
Qed.

Lemma lifecycle_returns_iff_witness :
  (exists r, fst (resumeWorker sample_upstream {| workerName := "w4" |} ready_world)
             = Returned r)
  /\ ~ (exists r, fst (resumeWorker sample_upstream {| workerName := "w3" |} ready_world)
                  = Returned r).
Proof.
  split.
  - apply (proj1 (proj2 (lifecycle_returns_iff
                           sample_upstream fleet {| workerName := "w4" |} ready_world
                           eq_refl eq_refl))).
    exists w4. repeat split.
  - intros H.
    apply (proj1 (proj1 (proj2 (lifecycle_returns_iff
                                  sample_upstream fleet {| workerName := "w3" |} ready_world
                                  eq_refl eq_refl)))) in H.
    destruct H as [i [Hi [Hst _]]]. injection Hi as <-. discriminate.
Defined.

(** ** What a lifecycle handler returns, and what it calls *)

Ltac lookup_cases u req :=
  let e := fresh "e" in
  let ws := fresh "ws" in
  let i := fresh "i" in
  let n := fresh "n" in
  destruct (createComputeAPI_answer u) as [[]|e] eqn:Hapi;
  [ destruct (list_answer u InstancesClient) as [ws|e] eqn:Hlist;
    [ destruct (existing (find_worker ws (workerName req))) as [[i n]|] eqn:Hex | ]
  | ].

(** X3: whatever the collaborators answer, a lifecycle handler that returns
    returns the name it was asked for, and that name is not empty. *)
Theorem lifecycle_reply_is_request
  (u : Collaborators) (req : InferenceWorker) (w : World) (r : InferenceWorker) :
  fst (pauseWorker u req w) = Returned r
  \/ fst (resumeWorker u req w) = Returned r
  \/ fst (deleteWorker u req w) = Returned r ->
  r = req /\ workerName req <> "".
Proof.
  intros H. lookup_cases u req.
  - destruct (existing_found _ _ _ _ Hex) as (_ & -> & Hne & _).
    split; [|exact Hne].
    rewrite (pauseWorker_outcome u ws req w i _ Hapi Hlist Hex),
            (resumeWorker_outcome u ws Hapi Hlist req w i _ Hex),
            (deleteWorker_outcome u ws req w i _ Hapi Hlist Hex) in H.
    destruct req as [n]. simpl in *.
    destruct H as [H|[H|H]].
    + destruct (pause_answer u InstancesClient n); [now injection H | discriminate].
    + destruct (negb _); [discriminate|].
      destruct (start_answer u InstancesClient n); [now injection H | discriminate].
    + destruct (remove_answer u InstancesClient n); [now injection H | discriminate].
  - rewrite (pauseWorker_absent u ws Hapi Hlist req w Hex),
            (resumeWorker_absent u ws Hapi Hlist req w Hex),
            (deleteWorker_absent u ws Hapi Hlist req w Hex) in H.
    destruct H as [H|[H|H]]; discriminate.
  - rewrite (pauseWorker_no_list u Hapi req w e Hlist),
            (resumeWorker_no_list u Hapi req w e Hlist),
            (deleteWorker_no_list u Hapi req w e Hlist) in H.
    destruct H as [H|[H|H]]; discriminate.
  - rewrite (pauseWorker_no_api u req w e Hapi),
            (resumeWorker_no_api u req w e Hapi),
            (deleteWorker_no_api u req w e Hapi) in H.
    destruct H as [H|[H|H]]; discriminate.
Qed.

Lemma lifecycle_reply_is_request_witness :
  fst (deleteWorker sample_upstream {| workerName := "w1" |} ready_world)
  = Returned {| workerName := "w1" |}
  /\ {| workerName := "w1" |} = {| workerName := "w1" |} /\ "w1" <> "".
Proof.
  split; [reflexivity|].
  apply (lifecycle_reply_is_request
           sample_upstream {| workerName := "w1" |} ready_world {| workerName := "w1" |}).
  right; right; reflexivity.
Defined.

(** X6: whatever the collaborators answer, pauseWorker issues nothing but
    the lookup, shutdown notifications and a pause of the requested name;
    resumeWorker nothing but the lookup and a start of the requested name (no
    shutdown notification); deleteWorker nothing but the lookup, shutdown
    notifications and a remove of the requested name. *)
Theorem lifecycle_calls_of_own_kind
  (u : Collaborators) (req : InferenceWorker) (w : World) (c : Call) :
  (In c (issued w (snd (pauseWorker u req w))) ->
   c = CallCreateComputeAPI \/ c = CallList
   \/ (exists ip, c = CallShutdown ip) \/ c = CallPause (workerName req))
  /\ (In c (issued w (snd (resumeWorker u req w))) ->
      c = CallCreateComputeAPI \/ c = CallList \/ c = CallStart (workerName req))
  /\ (In c (issued w (snd (deleteWorker u req w))) ->
      c = CallCreateComputeAPI \/ c = CallList
      \/ (exists ip, c = CallShutdown ip) \/ c = CallRemove (workerName req)).
Proof.
  assert (Hnotified : forall i, In c (notified i) -> exists ip, c = CallShutdown ip).
  { intros i. unfold notified. destruct (getWorkerIP i) as [ip|]; [|intros []].
    destruct (truthy (Some ip)); [|intros []].
    intros [<-|[]]. now exists ip. }
  lookup_cases u req.
  - pose proof (found_name ws req i n Hex) as ->.
    rewrite (pauseWorker_issued u ws Hapi Hlist req w i _ Hex),
            (resumeWorker_issued u ws Hapi Hlist req w i _ Hex),
            (deleteWorker_issued u ws Hapi Hlist req w i _ Hex).
    repeat split.
    + simpl. rewrite in_app_iff. simpl.
      intros [<-|[<-|[H|[<-|[]]]]]; eauto.
    + destruct (negb _); simpl; intros H; intuition auto.
    + simpl. rewrite in_app_iff. simpl.
      intros [<-|[<-|[H|[<-|[]]]]]; eauto.
  - rewrite (pauseWorker_absent u ws Hapi Hlist req w Hex),
            (resumeWorker_absent u ws Hapi Hlist req w Hex),
            (deleteWorker_absent u ws Hapi Hlist req w Hex).
    simpl snd. rewrite issued_looked_up. simpl. intuition auto.
  - rewrite (pauseWorker_no_list u Hapi req w e Hlist),
            (resumeWorker_no_list u Hapi req w e Hlist),
            (deleteWorker_no_list u Hapi req w e Hlist).
    simpl snd. rewrite issued_looked_up. simpl. intuition auto.
  - rewrite (pauseWorker_no_api u req w e Hapi),
            (resumeWorker_no_api u req w e Hapi),
            (deleteWorker_no_api u req w e Hapi).
    simpl snd. rewrite issued_after. simpl. intuition auto.
Qed.

Lemma lifecycle_calls_of_own_kind_witness :
  In (CallPause "w1")
     (issued ready_world (snd (pauseWorker sample_upstream {| workerName := "w1" |} ready_world)))
  /\ (CallPause "w1" = CallCreateComputeAPI \/ CallPause "w1" = CallList
      \/ (exists ip, CallPause "w1" = CallShutdown ip)
      \/ CallPause "w1" = CallPause "w1").
Proof.
  assert (H : In (CallPause "w1")
                 (issued ready_world
                    (snd (pauseWorker sample_upstream {| workerName := "w1" |} ready_world))))
    by (simpl; auto).
  split; [exact H|].
  exact (proj1 (lifecycle_calls_of_own_kind
                  sample_upstream {| workerName := "w1" |} ready_world (CallPause "w1")) H).
Defined.

(** ** When the fleet call fails *)

Lemma pauseWorker_logged_failure u ws req w i n e :
  createComputeAPI_answer u = Returned InstancesClient ->
  list_answer u InstancesClient = Returned ws ->
  existing (find_worker ws (workerName req)) = Some (i, n) ->
  pause_answer u InstancesClient n = Thrown e ->
  logged w (snd (pauseWorker u req w))
  = (complaint u i (workerName req) ++ [LogFailure e])%list.
Proof.
  intros Hapi Hlist Hex He.
  rewrite (pauseWorker_existing u ws Hapi Hlist req w i n Hex). cbv zeta.
  rewrite notify_shutdown_world, He. unfold looked_up. simpl snd.
  now rewrite !after_after, logged_after.
Qed.

Lemma deleteWorker_logged_failure u ws req w i n e :
  createComputeAPI_answer u = Returned InstancesClient ->
  list_answer u InstancesClient = Returned ws ->
  existing (find_worker ws (workerName req)) = Some (i, n) ->
  remove_answer u InstancesClient n = Thrown e ->
  logged w (snd (deleteWorker u req w))
  = (complaint u i (workerName req) ++ [LogFailure e])%list.
Proof.
  intros Hapi Hlist Hex He.
  rewrite (deleteWorker_existing u ws Hapi Hlist req w i n Hex). cbv zeta.
  rewrite notify_shutdown_world, He. unfold looked_up. simpl snd.
  now rewrite !after_after, logged_after.
Qed.

(** X5: for an existing worker, a failure of the pause, start or remove
    call is written to the console as the error object and rethrown as
    Internal, whatever code it carried, with the text "Failed to pause
    (resume, delete) worker <name>: " followed by the failure's [e.message]
    (for a ConnectError, its text behind the bracketed code).  The call has
    been issued all the same, after the shutdown notification if any. *)
Theorem fleet_failure_is_Internal
  (u : Collaborators) (ws : list Instance) (req : InferenceWorker) (w : World)
  (i : Instance) (n : string) (e : Failure) :
  createComputeAPI_answer u = Returned InstancesClient ->
  list_answer u InstancesClient = Returned ws ->
  existing (find_worker ws (workerName req)) = Some (i, n) ->
  (pause_answer u InstancesClient n = Thrown e ->
   fst (pauseWorker u req w)
   = Thrown (ConnectError ("Failed to pause worker " ++ workerName req
                           ++ ": " ++ message e) Internal)
   /\ logged w (snd (pauseWorker u req w))
      = (complaint u i (workerName req) ++ [LogFailure e])%list
   /\ In (CallPause n) (issued w (snd (pauseWorker u req w))))
  /\ (status i = Some "TERMINATED" ->
      start_answer u InstancesClient n = Thrown e ->
      fst (resumeWorker u req w)
      = Thrown (ConnectError ("Failed to resume worker " ++ workerName req
                              ++ ": " ++ message e) Internal)
      /\ logged w (snd (resumeWorker u req w)) = [LogFailure e]
      /\ In (CallStart n) (issued w (snd (resumeWorker u req w))))
  /\ (remove_answer u InstancesClient n = Thrown e ->
      fst (deleteWorker u req w)
      = Thrown (ConnectError ("Failed to delete worker " ++ workerName req
                              ++ ": " ++ message e) Internal)
      /\ logged w (snd (deleteWorker u req w))
         = (complaint u i (workerName req) ++ [LogFailure e])%list
      /\ In (CallRemove n) (issued w (snd (deleteWorker u req w)))).
Proof.
  intros Hapi Hlist Hex. repeat split.
  - now rewrite (pauseWorker_outcome u ws req w i n Hapi Hlist Hex), H.
  - now apply pauseWorker_logged_failure with (ws := ws) (n := n).
  - rewrite (pauseWorker_issued u ws Hapi Hlist req w i n Hex).
    rewrite !in_app_iff. right; right. simpl; auto.
  - rewrite (resumeWorker_outcome u ws Hapi Hlist req w i n Hex), H, H0.
    reflexivity.
  - rewrite (resumeWorker_logged u ws Hapi Hlist req w i n Hex), H, H0.
    reflexivity.
  - rewrite (resumeWorker_issued u ws Hapi Hlist req w i n Hex), H.
    simpl; auto.
  - now rewrite (deleteWorker_outcome u ws req w i n Hapi Hlist Hex), H.
  - now apply deleteWorker_logged_failure with (ws := ws) (n := n).
  - rewrite (deleteWorker_issued u ws Hapi Hlist req w i n Hex).
    rewrite !in_app_iff. right; right. simpl; auto.
Qed.

Lemma fleet_failure_is_Internal_witness :
  let down := with_fleet_answer (Thrown (ConnectError "Quota exceeded" NotFound))
                                sample_upstream in
  fst (resumeWorker down {| workerName := "w4" |} ready_world)
  = Thrown (ConnectError "Failed to resume worker w4: [not_found] Quota exceeded"
                         Internal)
  /\ logged ready_world (snd (resumeWorker down {| workerName := "w4" |} ready_world))
     = [LogFailure (ConnectError "Quota exceeded" NotFound)]
  /\ In (CallStart "w4")
        (issued ready_world (snd (resumeWorker down {| workerName := "w4" |} ready_world))).
Proof.
  intros down.
  exact (proj1 (proj2 (fleet_failure_is_Internal
                         down fleet {| workerName := "w4" |} ready_world w4 "w4"
                         (ConnectError "Quota exceeded" NotFound)
                         eq_refl eq_refl eq_refl))
               eq_refl eq_refl).
Defined.

(** ** Several records of one name *)

(** X7: when several listed records carry the requested name, the handlers
    act on the first of them: its status decides resumeWorker, whatever the
    later records say, and its address is the one notified by pauseWorker and
    deleteWorker. *)
Theorem first_record_decides
  (u : Collaborators) (pre post : list Instance) (i : Instance)
  (req : InferenceWorker) (w : World) :
  createComputeAPI_answer u = Returned InstancesClient ->
  list_answer u InstancesClient = Returned (pre ++ i :: post)%list ->
  (forall j, In j pre -> name j <> Some (workerName req)) ->
  name i = Some (workerName req) ->
  workerName req <> "" ->
  (status i <> Some "TERMINATED" ->
   fst (resumeWorker u req w)
   = Thrown (ConnectError ("Worker " ++ workerName req ++ " is not paused")
                          FailedPrecondition))
  /\ (status i = Some "TERMINATED" ->
      issued w (snd (resumeWorker u req w))
      = [CallCreateComputeAPI; CallList; CallStart (workerName req)])
  /\ issued w (snd (pauseWorker u req w))
     = ([CallCreateComputeAPI; CallList] ++ notified i
        ++ [CallPause (workerName req)])%list
  /\ issued w (snd (deleteWorker u req w))
     = ([CallCreateComputeAPI; CallList] ++ notified i
        ++ [CallRemove (workerName req)])%list.
Proof.
  intros Hapi Hlist Hpre Hi Hne.
  assert (Hex : existing (find_worker (pre ++ i :: post)%list (workerName req))
                = Some (i, workerName req)).
  { rewrite (find_worker_first pre i post _ Hpre Hi). simpl. rewrite Hi.
    destruct (String.eqb_spec (workerName req) ""); [contradiction | reflexivity]. }
  repeat split.
  - intros Hst.
    rewrite (resumeWorker_outcome u _ Hapi Hlist req w i _ Hex).
    now rewrite (strict_eq_false _ _ Hst).
  - intros Hst.
    rewrite (resumeWorker_issued u _ Hapi Hlist req w i _ Hex).
    now rewrite Hst.
  - apply (pauseWorker_issued u _ Hapi Hlist req w i _ Hex).
  - apply (deleteWorker_issued u _ Hapi Hlist req w i _ Hex).
Qed.

Lemma first_record_decides_witness :
  let u := with_listing (Returned doubled_fleet) sample_upstream in
  In w1_paused doubled_fleet
  /\ fst (resumeWorker u {| workerName := "w1" |} ready_world)
     = Thrown (ConnectError "Worker w1 is not paused" FailedPrecondition)
  /\ issued ready_world (snd (pauseWorker u {| workerName := "w1" |} ready_world))
     = [CallCreateComputeAPI; CallList; CallShutdown "10.0.0.5"; CallPause "w1"].
Proof.
  intros u. split; [simpl; auto|].
  destruct (first_record_decides u [w3] [w1_paused] w1 {| workerName := "w1" |} ready_world
                                 eq_refl eq_refl) as (Hresume & _ & Hpause & _).
  - intros j [<-|[]]. discriminate.
  - reflexivity.
  - discriminate.
  - split; [apply Hresume; discriminate | exact Hpause].
Defined.

(** ** The listing handlers and worker creation *)

Lemma listModels_run u req w :
  listModels u req w
  = (match getAllModels_answer u with
     | Returned names =>
         Returned {| models := map (fun name => {| model_name := name |}) names |}
     | Thrown e => Thrown (ConnectError (message e) Internal)
     end,
     after w [CallGetAllModels] []).
Proof.
  unfold listModels, catch, bind, getAllModels. rewrite issue_after.
  destruct (getAllModels_answer u); reflexivity.
Qed.

(** X8: listModels lets no failure of the model catalog through as it is: a
    failure that carries another code, or none, is rethrown as Internal with
    the failure's [e.message] as its text (for a ConnectError, the old text
    behind the old code in brackets); so whatever listModels throws is
    Internal.  Nothing is written to the console. *)
Theorem listModels_failure_is_Internal
  (u : Collaborators) (req : Empty) (w : World) :
  (forall e,
     getAllModels_answer u = Thrown e ->
     listModels u req w
     = (Thrown (ConnectError (message e) Internal), after w [CallGetAllModels] []))
  /\ (forall e,
        fst (listModels u req w) = Thrown e -> code_of e = Some Internal)
  /\ logged w (snd (listModels u req w)) = [].
Proof.
  rewrite listModels_run. repeat split.
  - intros e He. now rewrite He.
  - simpl. destruct (getAllModels_answer u); [discriminate|].
    intros e' H. injection H as <-. reflexivity.
  - simpl. apply logged_after.
Qed.

Lemma listModels_failure_is_Internal_witness :
  let u := with_catalog (Thrown (ConnectError "bucket not found" NotFound))
                        sample_upstream in
  listModels u Build_Empty ready_world
  = (Thrown (ConnectError "[not_found] bucket not found" Internal),
     after ready_world [CallGetAllModels] []).
Proof.
  intros u.
  exact (proj1 (listModels_failure_is_Internal u Build_Empty ready_world)
               (ConnectError "bucket not found" NotFound) eq_refl).
Defined.

(** X9: when the catalog answers, listModels returns one model per name, in
    the catalog's order: the names of the models returned are the catalog's
    names. *)
Theorem listModels_names
  (u : Collaborators) (req : Empty) (w : World) (names : list string) :
  getAllModels_answer u = Returned names ->
  exists response,
    fst (listModels u req w) = Returned response
    /\ map model_name (models response) = names
    /\ length (models response) = length names.
Proof.
  intros H. rewrite listModels_run, H. eexists. split; [reflexivity|]. simpl.
  split; [|apply length_map].
  rewrite map_map. simpl. apply map_id.
Qed.

Lemma listModels_names_witness :
  exists response,
    fst (listModels sample_upstream Build_Empty ready_world) = Returned response
    /\ map model_name (models response) = ["llama-7b"]
    /\ length (models response) = 1.
Proof.
  exact (listModels_names sample_upstream Build_Empty ready_world ["llama-7b"] eq_refl).
Defined.

(** X10: listWorkers and createInferenceWorker handle no failure themselves.
    Each puts one call to its controller, createInferenceWorker with the
    request's model name, resources and optional worker name as they came;
    what the controller throws is thrown on unchanged, code included, and
    what createInferenceWorker returns is the name the controller chose. *)
Theorem controller_outcome_passes (u : Collaborators) (w : World) :
  (forall (req : Empty),
     snd (listWorkers u req w) = after w [CallListWorkersController] []
     /\ (forall e, listWorkersController_answer u = Thrown e ->
                   fst (listWorkers u req w) = Thrown e)
     /\ (forall l, listWorkersController_answer u = Returned l ->
                   fst (listWorkers u req w) = Returned {| workers := l |}))
  /\ (forall (req : CreateInferenceWorkerRequest),
        let resources :=
          {| res_quantization := quantization req;
             res_gpuType := gpuType req;
             res_gpuCount := gpuCount req |} in
        let asked :=
          createInferenceWorkerController_answer
            u (modelName req) resources (create_workerName req) in
        snd (createInferenceWorker u req w)
        = after w [CallCreateInferenceWorkerController
                     (modelName req) resources (create_workerName req)] []
        /\ (forall e, asked = Thrown e ->
                      fst (createInferenceWorker u req w) = Thrown e)
        /\ (forall n, asked = Returned n ->
                      fst (createInferenceWorker u req w)
                      = Returned {| workerName := n |})).
Proof.
  split.
  - intros req. unfold listWorkers, bind, listWorkersController.
    rewrite issue_after.
    destruct (listWorkersController_answer u) as [l|e]; simpl;
      repeat split; intros ? H; now inversion H.
  - intros req resources asked. subst asked resources.
    unfold createInferenceWorker, bind, createInferenceWorkerController.
    rewrite issue_after.
    destruct (createInferenceWorkerController_answer u _ _ _) as [n|e]; simpl;
      repeat split; intros ? H; now inversion H.
Qed.

Lemma controller_outcome_passes_witness :
  let req := {| modelName := "llama-7b"; quantization := "int8";
                gpuType := Some "A100"; gpuCount := Some 1;
                create_workerName := None |} in
  fst (createInferenceWorker sample_upstream req ready_world)
  = Returned {| workerName := "haven-w" |}.
Proof.
  intros req.
  exact (proj2 (proj2 (proj2 (controller_outcome_passes sample_upstream ready_world) req))
               "haven-w" eq_refl).
Defined.

(** ** Setup *)

Lemma issued_same w : issued w w = [].
Proof. rewrite <- (after_nil w) at 2. apply issued_after. Qed.

Lemma logged_same w : logged w w = [].
Proof. rewrite <- (after_nil w) at 2. apply logged_after. Qed.

(** X11: setupHandler calls the setup controller exactly when setup is not
    done and the request carries a key file, once, with that key file; in
    every other case it calls nothing.  It never writes to the console. *)
Theorem setupController_called_iff
  (u : Collaborators) (req : SetupRequest) (w : World) :
  (forall file,
     In (CallSetupController file) (issued w (snd (setupHandler u req w)))
     <-> setupDone w = false /\ keyFile req = Some file)
  /\ length (issued w (snd (setupHandler u req w))) <= 1
  /\ logged w (snd (setupHandler u req w)) = [].
Proof.
  destruct (setupDone w) eqn:Hdone.
  - rewrite (setupHandler_done u req w Hdone). simpl snd.
    rewrite issued_same, logged_same.
    split; [|split; [simpl; lia | reflexivity]].
    intros file. split; [intros [] | intros [? ?]; discriminate].
  - destruct (keyFile req) as [f|] eqn:Hfile.
    + rewrite (setupHandler_payload u req w f Hdone Hfile).
      assert (E : forall o : Outcome unit * World,
                 o = (Returned tt,
                      {| setupDone := true;
                         calls := calls w ++ [CallSetupController f];
                         console := console w |})
                 \/ (exists e, o = (Thrown e, after w [CallSetupController f] [])) ->
                 issued w (snd o) = [CallSetupController f] /\ logged w (snd o) = []).
      { intros o [->|[e ->]]; simpl snd.
        - unfold issued, logged; simpl. rewrite skipn_length_app.
          split; [reflexivity|].
          rewrite <- (app_nil_r (console w)) at 2. apply skipn_length_app.
        - now rewrite issued_after, logged_after. }
      destruct (E (match setupController_answer u f with
                   | Returned _ =>
                       (Returned tt,
                        {| setupDone := true;
                           calls := calls w ++ [CallSetupController f];
                           console := console w |})
                   | Thrown e => (Thrown e, after w [CallSetupController f] [])
                   end)) as [Hi Hl].
      { destruct (setupController_answer u f) as [[]|e]; eauto. }
      rewrite Hi, Hl. split; [|split; [simpl; lia | reflexivity]].
      intros file. split.
      * intros [H|[]]. injection H as <-. auto.
      * intros [_ H]. injection H as <-. simpl; auto.
    + rewrite (setupHandler_probe u req w Hdone Hfile). simpl snd.
      rewrite issued_same, logged_same.
      split; [|split; [simpl; lia | reflexivity]].
    intros file. split; [intros [] | intros [? ?]; discriminate].
Qed.

Lemma setupController_called_iff_witness :
  In (CallSetupController "{ key }")
     (issued fresh_world
        (snd (setupHandler sample_upstream {| keyFile := Some "{ key }" |} fresh_world)))
  /\ ~ In (CallSetupController "{ key }")
          (issued ready_world
             (snd (setupHandler sample_upstream {| keyFile := Some "{ key }" |}
                                ready_world))).
Proof.
  split.
  - apply (proj1 (setupController_called_iff
                    sample_upstream {| keyFile := Some "{ key }" |} fresh_world)).
    split; reflexivity.
  - intros H.
    apply (proj1 (setupController_called_iff
                    sample_upstream {| keyFile := Some "{ key }" |} ready_world)) in H.
    destruct H as [H _]. discriminate.
Defined.
